(** * Universal FHEVM SDK: instance manager, decryption session and React facade

    A shallow embedding of

    - [core/instance.ts]  ([createFhevmInstance], [getNetworkDefaults],
      [isInstanceReady]),
    - [core/decrypt.ts]   ([decryptValue], [decryptBatch],
      [generateReencryptSignature], [signEIP712], [requestDecryption],
      [createReencryptionPermit], [verifyDecryptSignature]),
    - [react/useFhevm.ts], [react/useEncrypt.ts], [react/useDecrypt.ts].

    An [async] function is a computation in the monad [M]: it threads the
    state of everything outside the SDK (wallet, network, engine) together
    with the log of the external calls made so far, and it settles either
    fulfilled ([Ok]) or rejected ([Threw]).  The JavaScript runtime and the
    libraries [ethers] and [fhevmjs] are the interface [Runtime]. *)

From Stdlib Require Import String Ascii ZArith List Bool Lia DecimalString.
Import ListNotations.

Open Scope string_scope.
Open Scope list_scope.

(* ================================================================= *)
(** ** JavaScript values and outcomes *)

(** A thrown value, read through [(error as Error).message]. *)
Record Error : Type := mkError { message : string }.

(** How a call ends: a returned value, or a thrown one. For an [async]
    function these are the fulfilled and the rejected promise. *)
Inductive Outcome (A : Type) : Type :=
| Ok (a : A)
| Threw (e : Error).
Arguments Ok {A} a.
Arguments Threw {A} e.

(** The result of [response.json()]. A number keeps its literal. *)
#[local] Set Warnings "-register-all".
Inductive JSON : Type :=
| JNull
| JBool (b : bool)
| JNumber (literal : string)
| JString (s : string)
| JArray (items : list JSON)
| JObject (members : list (string * JSON)).

#[local] Set Warnings "+register-all".

(** The values that reach [BigInt(...)] and the [raw: any] field. *)
Inductive JSValue : Type :=
| VUndefined
| VBigInt (z : Z)
| VJson (j : JSON).

(** The numbers that a numeric literal for an integer and [Number(bigint)]
    can give: an integer that a double holds, or an infinity. *)
Inductive JSNumber : Type :=
| Finite (z : Z)
| Infinity (negative : bool).

(** [Number(z)] for a bigint [z]: [z] itself below 2^53 in absolute value;
    beyond, [z] rounded to 53 significant bits, ties to the even
    significand, and an infinity from 2^1024 on. *)
Definition Number_of_bigint (z : Z) : JSNumber :=
  let a := Z.abs z in
  if (a <? 9007199254740992)%Z then Finite z
  else
    let e := (Z.log2 a - 52)%Z in
    let q := Z.shiftr a e in
    let r := (a - Z.shiftl q e)%Z in
    let half := Z.shiftl 1 (e - 1) in
    let q' := if (half <? r)%Z || ((r =? half)%Z && Z.odd q)
              then (q + 1)%Z else q in
    let m := Z.shiftl q' e in
    if (Z.shiftl 1 1024 <=? m)%Z then Infinity (z <? 0)%Z
    else Finite (Z.sgn z * m).

(** [a || b] on an optional string: [undefined] and [''] are falsy. *)
Definition truthy (o : option string) : bool :=
  match o with
  | Some s => negb (s =? "")
  | None => false
  end.

Definition or_else (a b : option string) : option string :=
  if truthy a then a else b.

(** [a || 'literal'], whose value is always a string. *)
Definition or_string (a : option string) (b : string) : string :=
  match or_else a (Some b) with
  | Some s => s
  | None => b
  end.

(** [bigint.prototype.toString()]: base 10, a leading [-] when negative. *)
Definition bigint_toString (z : Z) : string :=
  NilZero.string_of_int (Z.to_int z).

(** [assoc k l]: the first binding of [k]. *)
Fixpoint assoc {A : Type} (k : string) (l : list (string * A)) : option A :=
  match l with
  | [] => None
  | (k', v) :: rest => if k' =? k then Some v else assoc k rest
  end.

(* ================================================================= *)
(** ** Data of the SDK *)

(** [FhevmConfig] of core/instance.ts: every field optional. *)
Record FhevmConfig : Type := {
  network : option string;
  gatewayUrl : option string;
  publicKey : option string;
  kmsContractAddress : option string;
  aclContractAddress : option string
}.

(** The default argument [config = {}]. *)
Definition emptyConfig : FhevmConfig :=
  {| network := None; gatewayUrl := None; publicKey := None;
     kmsContractAddress := None; aclContractAddress := None |}.

(** A row of the table in [getNetworkDefaults]:
    [Required<Omit<FhevmConfig, 'network' | 'publicKey'>>]. *)
Record NetworkDefaults : Type := {
  nd_gatewayUrl : string;
  nd_kmsContractAddress : string;
  nd_aclContractAddress : string
}.

(** The object literal handed to fhevmjs' [createInstance]. A field is
    [None] when the expression that fills it evaluates to [undefined]. *)
Record InstanceParams : Type := {
  ip_kmsContractAddress : option string;
  ip_aclContractAddress : option string;
  ip_gatewayUrl : option string;
  ip_publicKey : option string
}.

(** fhevmjs' [FhevmInstance], as far as the SDK uses it: the two methods
    [hasKeypair()] and [getPublicKey()], and the parameters it was created
    with (which fhevmjs keeps to itself). *)
Record FhevmInstance : Type := {
  hasKeypair : bool;
  getPublicKey : string;
  createdWith : InstanceParams
}.

Inductive Handle : Type :=
| HBigInt (z : Z)
| HString (s : string).

Record DecryptOptions : Type := {
  contractAddress : string;
  userAddress : string;
  opt_gatewayUrl : option string
}.

Record DecryptResult : Type := {
  value : Z;
  raw : JSValue
}.

Record EIP712Signature : Type := {
  signature : string;
  sig_publicKey : string
}.

(** EIP-712 typed data: [domain], [types] and [message] of
    [signer.signTypedData]. *)
Record Domain : Type := {
  dom_name : string;
  dom_version : string;
  dom_chainId : option JSNumber;
  dom_verifyingContract : string
}.

Record TypedData : Type := {
  td_domain : Domain;
  td_types : list (string * list (string * string));
  td_message : list (string * string)
}.

(** The second argument of [fetch]; [body] is the object given to
    [JSON.stringify], member by member. *)
Record RequestInit : Type := {
  method : string;
  headers : list (string * string);
  body : list (string * string)
}.

(** What the SDK reads of a [Response]. *)
Record Response : Type := {
  ok : bool;
  status : Z;
  statusText : string;
  json : Outcome JSON
}.

(* ================================================================= *)
(** ** The world outside the SDK *)

(** One entry per call that leaves the SDK. *)
Inductive Event : Type :=
| EvInitFhevm
| EvCreateInstance (params : InstanceParams)
| EvGetSigner
| EvGetNetwork
| EvSignTypedData (td : TypedData)
| EvFetch (url : string) (init : RequestInit).

Section World.

(** The state of wallet, network and engine. *)
Context {Ext : Type}.

(** An external call: an outcome and the next state of the outside. *)
Definition External (A : Type) : Type := Ext -> Outcome A * Ext.

(** An [ethers.Signer]: [signer.provider?.getNetwork()] gives the chain
    id of the connected network, a bigint ([None] without a provider). *)
Record Signer : Type := {
  provider_getNetwork : option (External Z);
  signer_signTypedData : TypedData -> External string
}.

(** The JavaScript runtime, [ethers] and [fhevmjs]. *)
Record Runtime : Type := {
  BigInt : JSValue -> Outcome Z;
  toLowerCase : string -> string;
  verifyMessage : string -> string -> Outcome string;
  window_ethereum : Ext -> bool;
  getSigner : External Signer;
  fetch : string -> RequestInit -> External Response;
  initFhevm : External unit;
  createInstance : InstanceParams -> External FhevmInstance
}.

Record World : Type := { ext : Ext; trace : list Event }.

(** The monad of the SDK's functions. *)
Definition M (A : Type) : Type := World -> Outcome A * World.

Definition ret {A : Type} (a : A) : M A := fun w => (Ok a, w).

Definition throw {A : Type} (e : Error) : M A := fun w => (Threw e, w).

Definition bind {A B : Type} (m : M A) (k : A -> M B) : M B :=
  fun w =>
    match m w with
    | (Ok a, w') => k a w'
    | (Threw e, w') => (Threw e, w')
    end.

(** [try { m } catch (error) { handler error }] *)
Definition try_catch {A : Type} (m : M A) (handler : Error -> M A) : M A :=
  fun w =>
    match m w with
    | (Ok a, w') => (Ok a, w')
    | (Threw e, w') => handler e w'
    end.

(** A call with no effect outside. *)
Definition lift {A : Type} (o : Outcome A) : M A := fun w => (o, w).

(** An external call, logged. *)
Definition perform {A : Type} (ev : Event) (op : External A) : M A :=
  fun w =>
    let (o, x) := op (ext w) in
    (o, {| ext := x; trace := trace w ++ [ev] |}).

End World.

Arguments Signer : clear implicits.
Arguments Runtime : clear implicits.
Arguments World : clear implicits.
Arguments External : clear implicits.
Arguments M : clear implicits.

Declare Scope sdk_scope.
Delimit Scope sdk_scope with sdk.
Notation "x <- m ;; k" := (bind m (fun x => k))
  (at level 100, m at next level, right associativity) : sdk_scope.
Open Scope sdk_scope.

(* ================================================================= *)
(** ** core/instance.ts *)

(** What [defaults[network]] can evaluate to: one of the two rows of the
    object literal, or a member inherited from [Object.prototype]. *)
Inductive Member : Type :=
| Row (r : NetworkDefaults)
| Inherited (name : string).

Definition sepolia : NetworkDefaults :=
  {| nd_gatewayUrl := "https://gateway.sepolia.zama.ai";
     nd_kmsContractAddress := "0x9D6891A6240D6130c54ae243d8005063D05fE14b";
     nd_aclContractAddress := "0xFee8407e2f5e3Ee68ad77cAE98c434e637f516e5" |}.

Definition localhost : NetworkDefaults :=
  {| nd_gatewayUrl := "http://localhost:8545";
     nd_kmsContractAddress := "0x0000000000000000000000000000000000000000";
     nd_aclContractAddress := "0x0000000000000000000000000000000000000000" |}.

(** The own properties of the literal [defaults]. *)
Definition defaults : list (string * NetworkDefaults) :=
  [("sepolia", sepolia); ("localhost", localhost)].

(** The property names every object literal inherits (ECMAScript,
    [Object.prototype] with Annex B). *)
Definition Object_prototype : list string :=
  ["constructor"; "hasOwnProperty"; "isPrototypeOf"; "propertyIsEnumerable";
   "toLocaleString"; "toString"; "valueOf"; "__proto__";
   "__defineGetter__"; "__defineSetter__";
   "__lookupGetter__"; "__lookupSetter__"].

Definition inherited (name : string) : bool :=
  existsb (String.eqb name) Object_prototype.

(** [defaults[network]]: own property first, then the prototype. *)
Definition defaults_get (name : string) : option Member :=
  match assoc name defaults with
  | Some r => Some (Row r)
  | None => if inherited name then Some (Inherited name) else None
  end.

(** [defaults[network] || defaults.sepolia]: rows and inherited members
    are objects, hence truthy. *)
Definition getNetworkDefaults (name : string) : Member :=
  match defaults_get name with
  | Some m => m
  | None => Row sepolia
  end.

(** Reading a field of the value [getNetworkDefaults] returned:
    [undefined] on an inherited member. *)
Definition member_field (f : NetworkDefaults -> string) (m : Member)
  : option string :=
  match m with
  | Row r => Some (f r)
  | Inherited _ => None
  end.

(** The argument of [createInstance] in [createFhevmInstance]. *)
Definition mergedConfig (config : FhevmConfig) : InstanceParams :=
  let networkDefaults := getNetworkDefaults (or_string (network config) "sepolia") in
  {| ip_kmsContractAddress :=
       or_else (kmsContractAddress config)
               (member_field nd_kmsContractAddress networkDefaults);
     ip_aclContractAddress :=
       or_else (aclContractAddress config)
               (member_field nd_aclContractAddress networkDefaults);
     ip_gatewayUrl :=
       or_else (gatewayUrl config)
               (member_field nd_gatewayUrl networkDefaults);
     ip_publicKey := publicKey config |}.

Definition isInstanceReady (instance : option FhevmInstance) : bool :=
  match instance with
  | Some i => hasKeypair i
  | None => false
  end.

Section Core.

Context {Ext : Type} (rt : Runtime Ext).

Definition createFhevmInstance (config : FhevmConfig) : M Ext FhevmInstance :=
  try_catch
    (_ <- perform EvInitFhevm (initFhevm rt) ;;
     let params := mergedConfig config in
     instance <- perform (EvCreateInstance params) (createInstance rt params) ;;
     ret instance)
    (fun error =>
       throw (mkError ("Failed to create FHEVM instance: " ++ message error))).

(* =============================================================== *)
(** ** core/decrypt.ts *)

(** The typed data of [generateReencryptSignature]. *)
Definition reencryptTypedData (publicKey : string) (handle : Z)
           (contractAddress : string) : TypedData :=
  {| td_domain :=
       {| dom_name := "Authorization token";
          dom_version := "1";
          dom_chainId := Some (Finite 11155111);
          dom_verifyingContract := contractAddress |};
     td_types :=
       [("Reencrypt", [("publicKey", "bytes"); ("handle", "uint256")])];
     td_message :=
       [("publicKey", publicKey); ("handle", bigint_toString handle)] |}.

Definition signEIP712 (td : TypedData) (userAddress : string) : M Ext string :=
  fun w =>
    if window_ethereum rt (ext w) then
      (signer <- perform EvGetSigner (getSigner rt) ;;
       signature <- perform (EvSignTypedData td) (signer_signTypedData signer td) ;;
       ret signature) w
    else
      throw (mkError
        "No Ethereum provider found. Install MetaMask or provide a signer.") w.

Definition generateReencryptSignature (instance : FhevmInstance) (handle : Z)
           (contractAddress userAddress : string) : M Ext EIP712Signature :=
  try_catch
    (let publicKey := getPublicKey instance in
     signature <- signEIP712
                    (reencryptTypedData publicKey handle contractAddress)
                    userAddress ;;
     ret {| signature := signature; sig_publicKey := publicKey |})
    (fun error =>
       throw (mkError ("Failed to generate reencryption signature: "
                       ++ message error))).

(** [data.value] on the parsed body: a [TypeError] on [null], the member
    of an object, [undefined] on anything else. *)
Definition value_of (data : JSON) : Outcome JSValue :=
  match data with
  | JNull =>
      Threw (mkError "Cannot read properties of null (reading 'value')")
  | JObject members =>
      match assoc "value" members with
      | Some j => Ok (VJson j)
      | None => Ok VUndefined
      end
  | _ => Ok VUndefined
  end.

Definition reencryptRequest (handle : Z) (publicKey signature contractAddress : string)
  : RequestInit :=
  {| method := "POST";
     headers := [("Content-Type", "application/json")];
     body := [("handle", bigint_toString handle);
              ("publicKey", publicKey);
              ("signature", signature);
              ("contractAddress", contractAddress)] |}.

Definition requestDecryption (handle : Z)
           (publicKey signature contractAddress gatewayUrl : string) : M Ext Z :=
  response <- perform
                (EvFetch (gatewayUrl ++ "/reencrypt")
                   (reencryptRequest handle publicKey signature contractAddress))
                (fetch rt (gatewayUrl ++ "/reencrypt")
                   (reencryptRequest handle publicKey signature contractAddress)) ;;
  if negb (ok response) then
    throw (mkError ("Gateway request failed: " ++ statusText response))
  else
    data <- lift (json response) ;;
    v <- lift (value_of data) ;;
    lift (BigInt rt v).

(** [typeof handle === 'string' ? BigInt(handle) : handle] *)
Definition handleBigInt (handle : Handle) : Outcome Z :=
  match handle with
  | HString s => BigInt rt (VJson (JString s))
  | HBigInt z => Ok z
  end.

Definition decryptValue (instance : FhevmInstance) (handle : Handle)
           (options : DecryptOptions) : M Ext DecryptResult :=
  try_catch
    (if negb (hasKeypair instance) then
       throw (mkError "Instance does not have a keypair")
     else
       h <- lift (handleBigInt handle) ;;
       s <- generateReencryptSignature instance h
              (contractAddress options) (userAddress options) ;;
       decryptedValue <- requestDecryption h (sig_publicKey s) (signature s)
                           (contractAddress options)
                           (or_string (opt_gatewayUrl options)
                                      "https://gateway.sepolia.zama.ai") ;;
       ret {| value := decryptedValue; raw := VBigInt decryptedValue |})
    (fun error => throw (mkError ("Decryption failed: " ++ message error))).

(** The [for ... of] loop of [decryptBatch]; [results] is the array
    pushed to. *)
Fixpoint decryptBatch_loop (instance : FhevmInstance) (handles : list Handle)
         (options : DecryptOptions) (results : list DecryptResult)
  : M Ext (list DecryptResult) :=
  match handles with
  | [] => ret results
  | handle :: rest =>
      decrypted <- decryptValue instance handle options ;;
      decryptBatch_loop instance rest options (results ++ [decrypted])
  end.

Definition decryptBatch (instance : FhevmInstance) (handles : list Handle)
           (options : DecryptOptions) : M Ext (list DecryptResult) :=
  decryptBatch_loop instance handles options [].

(** The typed data of [createReencryptionPermit]. *)
Definition permitTypedData (publicKey : string) (chainId : option JSNumber)
           (contractAddress userAddress : string) : TypedData :=
  {| td_domain :=
       {| dom_name := "Authorization token";
          dom_version := "1";
          dom_chainId := chainId;
          dom_verifyingContract := contractAddress |};
     td_types := [("Permit", [("publicKey", "bytes"); ("owner", "address")])];
     td_message := [("publicKey", publicKey); ("owner", userAddress)] |}.

Definition createReencryptionPermit (instance : FhevmInstance)
           (contractAddress userAddress : string) (signer : Signer Ext)
  : M Ext string :=
  let publicKey := getPublicKey instance in
  chainId <- match provider_getNetwork signer with
             | Some getNetwork =>
                 n <- perform EvGetNetwork getNetwork ;;
               ret (Some (Number_of_bigint n))
             | None => ret None
             end ;;
  signature <- perform
                 (EvSignTypedData
                    (permitTypedData publicKey chainId contractAddress userAddress))
                 (signer_signTypedData signer
                    (permitTypedData publicKey chainId contractAddress userAddress)) ;;
  ret signature.

(** The [try]/[catch] of [verifyDecryptSignature] never reaches the
    outside: its promise settles with one of the two branches. *)
Definition verifyDecryptSignature (signature publicKey expectedAddress : string)
  : Outcome bool :=
  match verifyMessage rt publicKey signature with
  | Ok recoveredAddress =>
      Ok (toLowerCase rt recoveredAddress =? toLowerCase rt expectedAddress)
  | Threw _ => Ok false
  end.

End Core.

(* ================================================================= *)
(** ** react/useFhevm.ts *)

Module useFhevm.

(** The four [useState] cells of the hook. *)
Record State : Type := {
  instance : option FhevmInstance;
  ready : bool;
  error : option Error;
  loading : bool
}.

(** [useState(null)], [useState(false)], [useState(null)],
    [useState(true)]. *)
Definition initial : State :=
  {| instance := None; ready := false; error := None; loading := true |}.

Definition setInstance (v : option FhevmInstance) (st : State) : State :=
  {| instance := v; ready := ready st; error := error st; loading := loading st |}.

Definition setReady (v : bool) (st : State) : State :=
  {| instance := instance st; ready := v; error := error st; loading := loading st |}.

Definition setError (v : option Error) (st : State) : State :=
  {| instance := instance st; ready := ready st; error := v; loading := loading st |}.

Definition setLoading (v : bool) (st : State) : State :=
  {| instance := instance st; ready := ready st; error := error st; loading := v |}.

(** [initialize] up to its [await]: the state shown while
    [createFhevmInstance] is in flight. *)
Definition initialize_begin (st : State) : State :=
  setError None (setLoading true st).

(** [initialize] after its [await]: the rest of [try], or [catch], and
    then [finally]. *)
Definition initialize_settle (o : Outcome FhevmInstance) (st : State) : State :=
  setLoading false
    match o with
    | Ok newInstance =>
        setReady (isInstanceReady (Some newInstance))
          (setInstance (Some newInstance) st)
    | Threw err =>
        setInstance None (setReady false (setError (Some err) st))
    end.

Section Hook.

Context {Ext : Type} (rt : Runtime Ext).

Definition initialize (config : FhevmConfig) (st : State) (w : World Ext)
  : State * World Ext :=
  let (o, w') := createFhevmInstance rt config w in
  (initialize_settle o (initialize_begin st), w').

Definition reinitialize := initialize.

(** The effect [useEffect(() => { initialize(); }, [initialize])] of the
    first render, on the cells as [useState] created them. *)
Definition mount (config : FhevmConfig) (w : World Ext) : State * World Ext :=
  initialize config initial w.

End Hook.

End useFhevm.

(* ================================================================= *)
(** ** react/useDecrypt.ts *)

Definition notReady : Error :=
  mkError "FHEVM instance not ready. Wait for initialization.".

Module useDecrypt.

Record State : Type := {
  decrypting : bool;
  error : option Error;
  lastDecrypted : option DecryptResult
}.

Definition initial : State :=
  {| decrypting := false; error := None; lastDecrypted := None |}.

Definition setDecrypting (v : bool) (st : State) : State :=
  {| decrypting := v; error := error st; lastDecrypted := lastDecrypted st |}.

Definition setError (v : option Error) (st : State) : State :=
  {| decrypting := decrypting st; error := v; lastDecrypted := lastDecrypted st |}.

Definition setLastDecrypted (v : option DecryptResult) (st : State) : State :=
  {| decrypting := decrypting st; error := error st; lastDecrypted := v |}.

Section Hook.

Context {Ext : Type} (rt : Runtime Ext).

(** [fhevm] is what [useFhevm()] returned to the hook. *)
Definition decrypt (fhevm : useFhevm.State) (handle : Handle)
           (options : DecryptOptions) (st : State) (w : World Ext)
  : Outcome DecryptResult * State * World Ext :=
  match useFhevm.instance fhevm, useFhevm.ready fhevm with
  | Some instance, true =>
      let st1 := setError None (setDecrypting true st) in
      match decryptValue rt instance handle options w with
      | (Ok decrypted, w') =>
          (Ok decrypted,
           setDecrypting false (setLastDecrypted (Some decrypted) st1), w')
      | (Threw err, w') =>
          (Threw err, setDecrypting false (setError (Some err) st1), w')
      end
  | _, _ => (Threw notReady, st, w)
  end.

Definition decryptMultiple (fhevm : useFhevm.State) (handles : list Handle)
           (options : DecryptOptions) (st : State) (w : World Ext)
  : Outcome (list DecryptResult) * State * World Ext :=
  match useFhevm.instance fhevm, useFhevm.ready fhevm with
  | Some instance, true =>
      let st1 := setError None (setDecrypting true st) in
      match decryptBatch rt instance handles options w with
      | (Ok decrypted, w') =>
          (Ok decrypted,
           setDecrypting false
             (match decrypted with
              | [] => st1
              | _ :: _ => setLastDecrypted (Some (last decrypted
                            {| value := 0%Z; raw := VUndefined |})) st1
              end), w')
      | (Threw err, w') =>
          (Threw err, setDecrypting false (setError (Some err) st1), w')
      end
  | _, _ => (Threw notReady, st, w)
  end.

(** [const { instance, ready } = useFhevm();] when the hook mounts: a
    [useFhevm] of its own, called without a configuration. *)
Definition fhevm (w : World Ext) : useFhevm.State * World Ext :=
  useFhevm.mount rt emptyConfig w.

End Hook.

End useDecrypt.

(* ================================================================= *)
(** ** react/useEncrypt.ts *)

(** [number | boolean | bigint] *)
Inductive PlainValue : Type :=
| PNumber (literal : string)
| PBoolean (b : bool)
| PBigInt (z : Z).

Inductive EncryptionType : Type :=
| Tbool | Tuint4 | Tuint8 | Tuint16 | Tuint32 | Tuint64 | Tuint128 | Tuint256
| Taddress | Tbytes | Tbytes256.

Record EncryptedValue : Type := {
  data : list Z;
  handles : list string;
  inputProof : string
}.

Module useEncrypt.

Record State : Type := {
  encrypting : bool;
  error : option Error;
  lastEncrypted : option EncryptedValue
}.

Definition initial : State :=
  {| encrypting := false; error := None; lastEncrypted := None |}.

Definition setEncrypting (v : bool) (st : State) : State :=
  {| encrypting := v; error := error st; lastEncrypted := lastEncrypted st |}.

Definition setError (v : option Error) (st : State) : State :=
  {| encrypting := encrypting st; error := v; lastEncrypted := lastEncrypted st |}.

Definition setLastEncrypted (v : option EncryptedValue) (st : State) : State :=
  {| encrypting := encrypting st; error := error st; lastEncrypted := v |}.

Section Hook.

Context {Ext : Type}.

(** [encryptValue] of core/encrypt.ts, which the hook imports. *)
Variable encryptValue :
  FhevmInstance -> PlainValue -> EncryptionType -> M Ext EncryptedValue.

(** [type] is [None] when the caller leaves it out: ['uint64']. *)
Definition encrypt (fhevm : useFhevm.State) (value : PlainValue)
           (type : option EncryptionType) (st : State) (w : World Ext)
  : Outcome EncryptedValue * State * World Ext :=
  let type := match type with Some t => t | None => Tuint64 end in
  match useFhevm.instance fhevm, useFhevm.ready fhevm with
  | Some instance, true =>
      let st1 := setError None (setEncrypting true st) in
      match encryptValue instance value type w with
      | (Ok encrypted, w') =>
          (Ok encrypted,
           setEncrypting false (setLastEncrypted (Some encrypted) st1), w')
      | (Threw err, w') =>
          (Threw err, setEncrypting false (setError (Some err) st1), w')
      end
  | _, _ => (Threw notReady, st, w)
  end.

(** [encryptBatch] of core/encrypt.ts, which the hook imports. *)
Variable encryptBatch :
  FhevmInstance -> list (PlainValue * EncryptionType) -> M Ext (list EncryptedValue).


(** [const { instance, ready } = useFhevm();] when the hook mounts. *)
Definition fhevm (rt : Runtime Ext) (w : World Ext) : useFhevm.State * World Ext :=
  useFhevm.mount rt emptyConfig w.

End Hook.

End useEncrypt.

(* ================================================================= *)
(** ** A scripted outside, for running the functions above *)

Module Stub.

(** The wallet is present or not and is connected to [chainId]; every
    call of [signTypedData], [fetch] and [createInstance] takes the next
    scripted reply. *)
Record Script : Type := {
  wallet : bool;
  chainId : Z;
  signatures : list (Outcome string);
  responses : list (Outcome Response);
  engine : list (option bool)
}.

Definition sign (td : TypedData) : External Script string :=
  fun x =>
    match signatures x with
    | reply :: rest =>
        (reply, {| wallet := wallet x; chainId := chainId x; signatures := rest;
                   responses := responses x; engine := engine x |})
    | [] => (Threw (mkError "User rejected the request."), x)
    end.

Definition signer : Signer Script :=
  {| provider_getNetwork := Some (fun x => (Ok (chainId x), x));
     signer_signTypedData := sign |}.

Definition nextReply (url : string) (init : RequestInit) : External Script Response :=
  fun x =>
    match responses x with
    | reply :: rest =>
        (reply, {| wallet := wallet x; chainId := chainId x;
                   signatures := signatures x; responses := rest;
                   engine := engine x |})
    | [] => (Threw (mkError "Failed to fetch"), x)
    end.

(** A scripted [Some b] creates an instance whose [hasKeypair()] is [b];
    a scripted [None] makes the engine reject the parameters. *)
Definition create (params : InstanceParams) : External Script FhevmInstance :=
  fun x =>
    match engine x with
    | Some b :: rest =>
        (Ok {| hasKeypair := b; getPublicKey := "0x04ab"; createdWith := params |},
         {| wallet := wallet x; chainId := chainId x; signatures := signatures x;
            responses := responses x; engine := rest |})
    | None :: rest =>
        (Threw (mkError "invalid address"),
         {| wallet := wallet x; chainId := chainId x; signatures := signatures x;
            responses := responses x; engine := rest |})
    | [] => (Threw (mkError "engine unavailable"), x)
    end.

(** [BigInt] on bigints and on plain decimal strings. *)
Definition parseBigInt (v : JSValue) : Outcome Z :=
  match v with
  | VBigInt z => Ok z
  | VJson (JString s) =>
      match NilZero.int_of_string s with
      | Some i => Ok (Z.of_int i)
      | None => Threw (mkError ("Cannot convert " ++ s ++ " to a BigInt"))
      end
  | _ => Threw (mkError "Cannot convert value to a BigInt")
  end.

(** [toLowerCase] on the letters A to Z. *)
Definition lower (c : ascii) : ascii :=
  let n := nat_of_ascii c in
  if (65 <=? n)%nat && (n <=? 90)%nat then ascii_of_nat (n + 32) else c.

Fixpoint lowerCase (s : string) : string :=
  match s with
  | EmptyString => EmptyString
  | String c rest => String (lower c) (lowerCase rest)
  end.

(** [verifyMessage] of a signer who signs [message] as
    ["signed:" ++ message] and owns one address. *)
Definition recover (message sig : string) : Outcome string :=
  if sig =? "signed:" ++ message
  then Ok "0xAbCdEf0123456789aBcDeF0123456789AbCdEf01"
  else Threw (mkError "invalid signature").

Definition runtime : Runtime Script :=
  {| BigInt := parseBigInt;
     toLowerCase := lowerCase;
     verifyMessage := recover;
     window_ethereum := wallet;
     getSigner := fun x => (Ok signer, x);
     fetch := nextReply;
     initFhevm := fun x => (Ok tt, x);
     createInstance := create |}.

Definition start (x : Script) : World Script := {| ext := x; trace := [] |}.

(** An instance created for the [localhost] network. *)
Definition localInstance : FhevmInstance :=
  {| hasKeypair := true; getPublicKey := "0x04ab";
     createdWith := mergedConfig
       {| network := Some "localhost"; gatewayUrl := None; publicKey := None;
          kmsContractAddress := None; aclContractAddress := None |} |}.

Definition options : DecryptOptions :=
  {| contractAddress := "0x5FbDB2315678afecb367f032d93F642f64180aa3";
     userAddress := "0xf39Fd6e51aad88F6F4ce6aB8827279cffFb92266";
     opt_gatewayUrl := None |}.

Definition reply (code : Z) (text : string) (payload : JSON) : Outcome Response :=
  Ok {| ok := (200 <=? code)%Z && (code <=? 299)%Z; status := code;
        statusText := text; json := Ok payload |}.

(** A wallet on the local chain 31337 that signs every request, and a
    gateway that gives the scripted replies. *)
Definition script (replies : list (Outcome Response)) : Script :=
  {| wallet := true; chainId := 31337;
     signatures := map (fun _ => Ok "0xsig") replies;
     responses := replies; engine := [] |}.

End Stub.

(* ================================================================= *)
(** ** Reading the log *)

(** The URLs of the [fetch] calls of a log, in order. *)
Fixpoint fetched (log : list Event) : list string :=
  match log with
  | [] => []
  | EvFetch url _ :: rest => url :: fetched rest
  | _ :: rest => fetched rest
  end.

(** The chain ids of the domains given to [signTypedData], in order. *)
Fixpoint signedChainIds (log : list Event) : list (option JSNumber) :=
  match log with
  | [] => []
  | EvSignTypedData td :: rest => dom_chainId (td_domain td) :: signedChainIds rest
  | _ :: rest => signedChainIds rest
  end.

(** [r] is [o || d] for a field set to a non-empty string ([r] is that
    string) and for a field left out or empty ([r] is the default [d]). *)
Definition overrides (o : option string) (d : string) (r : option string) : Prop :=
  (forall u : string, o = Some u -> u <> "" -> r = Some u) /\
  (o = None \/ o = Some "" -> r = Some d).

(* ================================================================= *)
(** ** core/instance.ts, [getPublicKey] *)

Module Instance.

Definition getPublicKey (instance : FhevmInstance) : Outcome string :=
  if negb (hasKeypair instance) then
    Threw (mkError "Instance does not have a keypair")
  else
    Ok (getPublicKey instance).

End Instance.

(* ================================================================= *)
(** ** components/FhevmProvider.tsx *)

Module FhevmProvider.

Section Component.

(** [ReactNode], and which nodes are truthy. *)
Variable Node : Type.
Variable truthy_node : Node -> bool.

(** What the component returns: a fragment around one node, or the
    context provider around [children]. *)
Inductive Rendered : Type :=
| Fragment (node : Node)
| Provider (value : useFhevm.State) (children : Node).

(** [fhevmState.loading && loadingComponent] *)
Definition loading_and (fhevmState : useFhevm.State)
           (loadingComponent : option Node) : option Node :=
  if useFhevm.loading fhevmState then
    match loadingComponent with
    | Some node => if truthy_node node then Some node else None
    | None => None
    end
  else None.

(** The body of [FhevmProvider] after [useFhevm(config)] returned
    [fhevmState]; a prop left out is [None]. *)
Definition render (children : Node) (loadingComponent : option Node)
           (errorComponent : option (Error -> Node))
           (fhevmState : useFhevm.State) : Rendered :=
  match loading_and fhevmState loadingComponent with
  | Some node => Fragment node
  | None =>
      match useFhevm.error fhevmState, errorComponent with
      | Some error, Some component => Fragment (component error)
      | _, _ => Provider fhevmState children
      end
  end.

(** [useFhevmContext]: [context] is what [useContext(FhevmContext)]
    gives, [None] for the default [undefined]. *)
Definition useFhevmContext (context : option useFhevm.State)
  : Outcome useFhevm.State :=
  match context with
  | None => Threw (mkError "useFhevmContext must be used within a FhevmProvider")
  | Some value => Ok value
  end.

End Component.

End FhevmProvider.

(* ================================================================= *)
(** ** components/DecryptOutput.tsx *)

Module DecryptOutput.

(** The props the handlers read. A callback is a function of the
    component's caller: it returns or throws, and what else it does is
    its own affair. *)
Record Props : Type := {
  p_handle : Handle;
  p_contractAddress : string;
  p_userAddress : string;
  p_gatewayUrl : option string;
  p_autoDecrypt : bool;
  p_onDecrypt : option (Z -> Outcome unit);
  p_onError : option (Error -> Outcome unit)
}.

(** The calls made to the two callbacks. *)
Inductive Callback : Type :=
| OnDecrypt (v : Z)
| OnError (e : Error).

Section Component.

Context {Ext : Type} (rt : Runtime Ext).

(** How a handler ends: its promise, the [decryptedValue] cell, the cells
    of [useDecrypt], the world, and the callbacks it called. *)
Record Run : Type := {
  settled : Outcome unit;
  decryptedValue : option Z;
  hook : useDecrypt.State;
  world : World Ext;
  called : list Callback
}.

(** [catch (err) { if (onError) { onError(err); } }] *)
Definition caught (props : Props) (err : Error) (dv : option Z)
           (st : useDecrypt.State) (w : World Ext) (calls : list Callback) : Run :=
  match p_onError props with
  | Some onError =>
      {| settled := onError err; decryptedValue := dv; hook := st; world := w;
         called := calls ++ [OnError err] |}
  | None =>
      {| settled := Ok tt; decryptedValue := dv; hook := st; world := w;
         called := calls |}
  end.

Definition handleDecrypt (props : Props) (fhevm : useFhevm.State)
           (dv : option Z) (st : useDecrypt.State) (w : World Ext) : Run :=
  match useDecrypt.decrypt rt fhevm (p_handle props)
          {| contractAddress := p_contractAddress props;
             userAddress := p_userAddress props;
             opt_gatewayUrl := p_gatewayUrl props |} st w with
  | (Ok result, st', w') =>
      match p_onDecrypt props with
      | Some onDecrypt =>
          match onDecrypt (value result) with
          | Ok _ =>
              {| settled := Ok tt; decryptedValue := Some (value result);
                 hook := st'; world := w'; called := [OnDecrypt (value result)] |}
          | Threw err =>
              caught props err (Some (value result)) st' w'
                     [OnDecrypt (value result)]
          end
      | None =>
          {| settled := Ok tt; decryptedValue := Some (value result);
             hook := st'; world := w'; called := [] |}
      end
  | (Threw err, st', w') => caught props err dv st' w' []
  end.

(** Truthiness of [handle]: [0n] and [''] are falsy. *)
Definition handle_truthy (handle : Handle) : bool :=
  match handle with
  | HBigInt z => negb (z =? 0)%Z
  | HString s => negb (s =? "")
  end.

(** The effect [if (autoDecrypt && handle && contractAddress &&
    userAddress) { handleDecrypt(); }]. *)
Definition autoDecrypt_effect (props : Props) (fhevm : useFhevm.State)
           (dv : option Z) (st : useDecrypt.State) (w : World Ext) : Run :=
  if p_autoDecrypt props && handle_truthy (p_handle props)
     && negb (p_contractAddress props =? "")
     && negb (p_userAddress props =? "")
  then handleDecrypt props fhevm dv st w
  else {| settled := Ok tt; decryptedValue := dv; hook := st; world := w;
          called := [] |}.

End Component.

End DecryptOutput.

(* ================================================================= *)
(** ** components/EncryptInput.tsx *)

Module EncryptInput.

Record Props : Type := {
  p_type : option EncryptionType;
  p_onEncrypt : option (EncryptedValue -> string -> Outcome unit);
  p_onError : option (Error -> Outcome unit)
}.

Inductive Callback : Type :=
| OnEncrypt (encrypted : EncryptedValue) (originalValue : string)
| OnError (e : Error).

Section Component.

Context {Ext : Type} (rt : Runtime Ext).

(** [Number(value)], as the literal of the number it gives. *)
Variable Number : string -> string.

Variable encryptValue :
  FhevmInstance -> PlainValue -> EncryptionType -> M Ext EncryptedValue.

(** How [handleSubmit] ends: its promise, the [value] cell of the input,
    the cells of [useEncrypt], the world, and the callbacks it called. *)
Record Run : Type := {
  settled : Outcome unit;
  input : string;
  hook : useEncrypt.State;
  world : World Ext;
  called : list Callback
}.

(** [catch (err) { if (onError) { onError(err); } }] *)
Definition caught (props : Props) (err : Error) (value : string)
           (st : useEncrypt.State) (w : World Ext) (calls : list Callback) : Run :=
  match p_onError props with
  | Some onError =>
      {| settled := onError err; input := value; hook := st; world := w;
         called := calls ++ [OnError err] |}
  | None =>
      {| settled := Ok tt; input := value; hook := st; world := w;
         called := calls |}
  end.

(** The conversion at the head of the [try] block. *)
Definition numericValue (type : EncryptionType) (value : string)
  : Outcome PlainValue :=
  match type with
  | Tbool => Ok (PBoolean ((toLowerCase rt value =? "true") || (value =? "1")))
  | Tuint128 | Tuint256 | Taddress | Tbytes | Tbytes256 =>
      match BigInt rt (VJson (JString value)) with
      | Ok z => Ok (PBigInt z)
      | Threw err => Threw err
      end
  | _ => Ok (PNumber (Number value))
  end.

Definition handleSubmit (props : Props) (fhevm : useFhevm.State)
           (value : string) (st : useEncrypt.State) (w : World Ext) : Run :=
  let type := match p_type props with Some t => t | None => Tuint64 end in
  if value =? "" then
    {| settled := Ok tt; input := value; hook := st; world := w; called := [] |}
  else
    match numericValue type value with
    | Threw err => caught props err value st w []
    | Ok v =>
        match useEncrypt.encrypt encryptValue fhevm v (Some type) st w with
        | (Ok encrypted, st', w') =>
            match p_onEncrypt props with
            | Some onEncrypt =>
                match onEncrypt encrypted value with
                | Ok _ =>
                    {| settled := Ok tt; input := ""; hook := st'; world := w';
                       called := [OnEncrypt encrypted value] |}
                | Threw err =>
                    caught props err value st' w' [OnEncrypt encrypted value]
                end
            | None =>
                {| settled := Ok tt; input := ""; hook := st'; world := w';
                   called := [] |}
            end
        | (Threw err, st', w') => caught props err value st' w' []
        end
    end.

End Component.

End EncryptInput.

(* ================================================================= *)
(** * Properties *)

(** ** The monad *)

Ltac unfold_monad :=
  unfold bind, try_catch, ret, throw, lift, perform in *.

Section BatchFacts.

Context {Ext : Type} (rt : Runtime Ext).
Variables (instance : FhevmInstance) (options : DecryptOptions).

(** The array [results] only grows at its end: a loop started with
    [results] returns it followed by what a loop started empty returns. *)
Lemma decryptBatch_loop_results (handles : list Handle) :
  forall (results : list DecryptResult) (w : World Ext),
    decryptBatch_loop rt instance handles options results w =
    match decryptBatch_loop rt instance handles options [] w with
    | (Ok rs, w') => (Ok (results ++ rs), w')
    | (Threw e, w') => (Threw e, w')
    end.
Proof.
  induction handles as [|h rest IH]; intros results w.
  - cbn. unfold ret. now rewrite app_nil_r.
  - cbn [decryptBatch_loop]. unfold bind.
    destruct (decryptValue rt instance h options w) as [[r|e] w1]; [|reflexivity].
    rewrite (IH (results ++ [r]) w1), (IH ([] ++ [r]) w1).
    destruct (decryptBatch_loop rt instance rest options [] w1) as [[rs|e] w2];
      [|reflexivity].
    now rewrite <- app_assoc.
Qed.

Lemma decryptBatch_nil (w : World Ext) :
  decryptBatch rt instance [] options w = (Ok [], w).
Proof. reflexivity. Qed.

Lemma decryptBatch_cons (h : Handle) (rest : list Handle) (w : World Ext) :
  decryptBatch rt instance (h :: rest) options w =
  match decryptValue rt instance h options w with
  | (Threw e, w1) => (Threw e, w1)
  | (Ok r, w1) =>
      match decryptBatch rt instance rest options w1 with
      | (Ok rs, w2) => (Ok (r :: rs), w2)
      | (Threw e, w2) => (Threw e, w2)
      end
  end.
Proof.
  unfold decryptBatch. cbn [decryptBatch_loop]. unfold bind.
  destruct (decryptValue rt instance h options w) as [[r|e] w1]; [|reflexivity].
  now rewrite decryptBatch_loop_results.
Qed.

(** A batch over [pre ++ post] is the batch over [pre] followed, from the
    world that one left, by the batch over [post]. *)
Lemma decryptBatch_app (pre post : list Handle) :
  forall w : World Ext,
    decryptBatch rt instance (pre ++ post) options w =
    match decryptBatch rt instance pre options w with
    | (Threw e, w1) => (Threw e, w1)
    | (Ok rs, w1) =>
        match decryptBatch rt instance post options w1 with
        | (Ok rs', w2) => (Ok (rs ++ rs'), w2)
        | (Threw e, w2) => (Threw e, w2)
        end
    end.
Proof.
  induction pre as [|h pre IH]; intros w.
  - rewrite decryptBatch_nil. cbn [app].
    now destruct (decryptBatch rt instance post options w) as [[rs|e] w2].
  - cbn [app]. rewrite !decryptBatch_cons.
    destruct (decryptValue rt instance h options w) as [[r|e] w1]; [|reflexivity].
    rewrite IH.
    destruct (decryptBatch rt instance pre options w1) as [[rs|e] w2]; [|reflexivity].
    now destruct (decryptBatch rt instance post options w2) as [[rs'|e] w3].
Qed.

(** A fulfilled batch has one result per handle. *)
Lemma decryptBatch_length (handles : list Handle) :
  forall (w w' : World Ext) (rs : list DecryptResult),
    decryptBatch rt instance handles options w = (Ok rs, w') ->
    length rs = length handles.
Proof.
  induction handles as [|h rest IH]; intros w w' rs.
  - rewrite decryptBatch_nil. now intros [= <- _].
  - rewrite decryptBatch_cons.
    destruct (decryptValue rt instance h options w) as [[r|e] w1]; [|discriminate].
    destruct (decryptBatch rt instance rest options w1) as [[rs'|e] w2] eqn:E;
      [|discriminate].
    intros [= <- _]. cbn. f_equal. exact (IH _ _ _ E).
Qed.

End BatchFacts.

(** C4. [decryptBatch] runs [decryptValue] on the handles one after the
    other in input order: the first element runs from the initial world and
    the rest of the batch runs from the world that element left behind, the
    results keeping the order of the handles. When the elements before
    position [k = length pre] are fulfilled and element [k] is rejected with
    [e], the batch is rejected with [e] in the world element [k] left: the
    elements after it are never started, and the results of the elements
    before it are not returned. *)
Theorem decryptBatch_sequential_fail_fast :
  forall (Ext : Type) (rt : Runtime Ext) (instance : FhevmInstance)
         (options : DecryptOptions),
    (forall (h : Handle) (rest : list Handle) (w : World Ext),
        decryptBatch rt instance (h :: rest) options w =
        match decryptValue rt instance h options w with
        | (Threw e, w1) => (Threw e, w1)
        | (Ok r, w1) =>
            match decryptBatch rt instance rest options w1 with
            | (Ok rs, w2) => (Ok (r :: rs), w2)
            | (Threw e, w2) => (Threw e, w2)
            end
        end) /\
    (forall (pre post : list Handle) (h : Handle) (w w1 w2 : World Ext)
            (rs : list DecryptResult) (e : Error),
        decryptBatch rt instance pre options w = (Ok rs, w1) ->
        decryptValue rt instance h options w1 = (Threw e, w2) ->
        length rs = length pre /\
        decryptBatch rt instance (pre ++ h :: post) options w = (Threw e, w2)).
Proof.
  intros Ext rt instance options. split.
  - apply decryptBatch_cons.
  - intros pre post h w w1 w2 rs e Hpre Hk. split.
    + exact (decryptBatch_length rt instance options pre w w1 rs Hpre).
    + rewrite decryptBatch_app, Hpre, decryptBatch_cons, Hk. reflexivity.
Qed.

(** The second of three handles meets a gateway answering 500: the batch
    is rejected with that failure, and the third scripted reply is still
    unused. *)
Lemma decryptBatch_sequential_fail_fast_witness :
  decryptBatch Stub.runtime Stub.localInstance
    ([HString "12"] ++ HBigInt 3 :: [HBigInt 4]) Stub.options
    (Stub.start (Stub.script
       [Stub.reply 200 "OK" (JObject [("value", JString "42")]);
        Stub.reply 500 "Internal Server Error" JNull;
        Stub.reply 200 "OK" (JObject [("value", JString "7")])]))
  = (Threw (mkError
       "Decryption failed: Gateway request failed: Internal Server Error"),
     snd (decryptValue Stub.runtime Stub.localInstance (HBigInt 3) Stub.options
            (snd (decryptValue Stub.runtime Stub.localInstance (HString "12")
                    Stub.options
                    (Stub.start (Stub.script
                       [Stub.reply 200 "OK" (JObject [("value", JString "42")]);
                        Stub.reply 500 "Internal Server Error" JNull;
                        Stub.reply 200 "OK" (JObject [("value", JString "7")])])))))).
Proof.
  refine (proj2 (proj2 (decryptBatch_sequential_fail_fast _ Stub.runtime
                   Stub.localInstance Stub.options)
                 [HString "12"] [HBigInt 4] (HBigInt 3) _ _ _
                 [{| value := 42%Z; raw := VBigInt 42 |}] _ _ _)).
  - vm_compute. reflexivity.
  - vm_compute. reflexivity.
Defined.

(** C10. On the empty list of handles [decryptBatch] is fulfilled with the
    empty array in the world it started from: nothing is signed and
    nothing is fetched, whatever the instance, a keypair or none. *)
Theorem decryptBatch_empty :
  forall (Ext : Type) (rt : Runtime Ext) (instance : FhevmInstance)
         (options : DecryptOptions) (w : World Ext),
    decryptBatch rt instance [] options w = (Ok [], w).
Proof. intros. reflexivity. Qed.

(** ** The decryption session *)

Section DecryptFacts.

Context {Ext : Type} (rt : Runtime Ext).

(** A fulfilled [signEIP712] got a signer and then a signature from it,
    and logged exactly these two calls. *)
Lemma signEIP712_fulfilled (td : TypedData) (userAddress signature : string)
      (w w1 : World Ext) :
  signEIP712 rt td userAddress w = (Ok signature, w1) ->
  window_ethereum rt (ext w) = true /\
  exists (signer : Signer Ext) (x1 x2 : Ext),
    getSigner rt (ext w) = (Ok signer, x1) /\
    signer_signTypedData signer td x1 = (Ok signature, x2) /\
    w1 = {| ext := x2; trace := trace w ++ [EvGetSigner; EvSignTypedData td] |}.
Proof.
  unfold signEIP712.
  destruct (window_ethereum rt (ext w)); [|discriminate].
  unfold_monad.
  destruct (getSigner rt (ext w)) as [[signer|e] x1] eqn:Hs; [|discriminate].
  cbn [ext trace].
  destruct (signer_signTypedData signer td x1) as [[sg|e] x2] eqn:Hg;
    [|discriminate].
  intros [= <- <-]. split; [reflexivity|].
  exists signer, x1, x2. rewrite <- app_assoc. auto.
Qed.

Lemma generateReencryptSignature_fulfilled (instance : FhevmInstance) (h : Z)
      (contract user : string) (s : EIP712Signature) (w w1 : World Ext) :
  generateReencryptSignature rt instance h contract user w = (Ok s, w1) ->
  sig_publicKey s = getPublicKey instance /\
  signEIP712 rt (reencryptTypedData (getPublicKey instance) h contract) user w
  = (Ok (signature s), w1).
Proof.
  unfold generateReencryptSignature. unfold_monad.
  destruct (signEIP712 rt _ user w) as [[sg|e] w'] eqn:Hs; [|discriminate].
  intros [= <- <-]. cbn. auto.
Qed.

(** The steps behind a fulfilled [decryptValue]. *)
Lemma decryptValue_fulfilled (instance : FhevmInstance) (handle : Handle)
      (options : DecryptOptions) (r : DecryptResult) (w w' : World Ext) :
  decryptValue rt instance handle options w = (Ok r, w') ->
  exists (h : Z) (s : EIP712Signature) (w1 : World Ext)
         (response : Response) (x2 : Ext) (payload : JSON) (v : JSValue),
    hasKeypair instance = true /\
    handleBigInt rt handle = Ok h /\
    generateReencryptSignature rt instance h
      (contractAddress options) (userAddress options) w = (Ok s, w1) /\
    fetch rt
      (or_string (opt_gatewayUrl options) "https://gateway.sepolia.zama.ai"
       ++ "/reencrypt")
      (reencryptRequest h (sig_publicKey s) (signature s) (contractAddress options))
      (ext w1) = (Ok response, x2) /\
    ok response = true /\
    json response = Ok payload /\
    value_of payload = Ok v /\
    BigInt rt v = Ok (value r) /\
    raw r = VBigInt (value r).
Proof.
  unfold decryptValue, requestDecryption. unfold_monad.
  destruct (hasKeypair instance); cbn [negb]; [|discriminate].
  destruct (handleBigInt rt handle) as [h|e] eqn:Hh; [|discriminate].
  destruct (generateReencryptSignature rt instance h _ _ w) as [[s|e] w1] eqn:Hs;
    [|discriminate].
  destruct (fetch rt _ _ (ext w1)) as [[response|e] x2] eqn:Hf; [|discriminate].
  destruct (ok response) eqn:Hok; cbn [negb]; [|discriminate].
  destruct (json response) as [payload|e] eqn:Hj; [|discriminate].
  destruct (value_of payload) as [v|e] eqn:Hv; [|discriminate].
  destruct (BigInt rt v) as [z|e] eqn:Hz; [|discriminate].
  intros [= <- <-]. cbn [value raw].
  exists h, s, w1, response, x2, payload, v. auto 10.
Qed.

(** Once the signature is there, [decryptValue] is the gateway request:
    one [fetch], then the reading of its response. *)
Lemma decryptValue_after_signature (instance : FhevmInstance) (handle : Handle)
      (options : DecryptOptions) (h : Z) (s : EIP712Signature) (w w1 : World Ext) :
  hasKeypair instance = true ->
  handleBigInt rt handle = Ok h ->
  generateReencryptSignature rt instance h
    (contractAddress options) (userAddress options) w = (Ok s, w1) ->
  decryptValue rt instance handle options w =
  try_catch
    (decryptedValue <- requestDecryption rt h (sig_publicKey s) (signature s)
                         (contractAddress options)
                         (or_string (opt_gatewayUrl options)
                                    "https://gateway.sepolia.zama.ai") ;;
     ret {| value := decryptedValue; raw := VBigInt decryptedValue |})
    (fun error => throw (mkError ("Decryption failed: " ++ message error))) w1.
Proof.
  intros Hk Hh Hs. unfold decryptValue. unfold_monad.
  rewrite Hk. cbn [negb]. rewrite Hh, Hs. reflexivity.
Qed.

(** [requestDecryption] logs its [fetch] and nothing else. *)
Lemma requestDecryption_trace (h : Z) (pk sg contract url : string) (w : World Ext) :
  trace (snd (requestDecryption rt h pk sg contract url w)) =
  trace w ++ [EvFetch (url ++ "/reencrypt") (reencryptRequest h pk sg contract)].
Proof.
  unfold requestDecryption. unfold_monad.
  destruct (fetch rt _ _ (ext w)) as [[response|e] x2]; [|reflexivity].
  destruct (ok response); cbn [negb]; [|reflexivity].
  destruct (json response) as [payload|e]; [|reflexivity].
  destruct (value_of payload) as [v|e]; [|reflexivity].
  destruct (BigInt rt v); reflexivity.
Qed.

End DecryptFacts.

(** C1, as the code has it. [decryptValue] is fulfilled with a
    [DecryptResult] only if the instance has a keypair, the handle
    converted, [generateReencryptSignature] was fulfilled and the gateway's
    response to the request built from that signature has [ok] set; the
    result is then no placeholder: the body of that response parsed, its
    [value] member was read, [BigInt] accepted it, and the [value] of the
    result is that integer (and [raw] the same integer). When the run gets
    as far as the gateway and the response has [ok] unset, it is rejected
    with the error ["Decryption failed: Gateway request failed: " ++
    statusText]: the failure holds the status text of the response, not its
    status code. Every rejection is an error whose message starts with
    ["Decryption failed: "]; there is no third kind of outcome. *)
Theorem decryptValue_all_or_nothing :
  forall (Ext : Type) (rt : Runtime Ext) (instance : FhevmInstance)
         (handle : Handle) (options : DecryptOptions) (w : World Ext),
    (forall (r : DecryptResult) (w' : World Ext),
        decryptValue rt instance handle options w = (Ok r, w') ->
        exists (h : Z) (s : EIP712Signature) (w1 : World Ext)
               (response : Response) (x2 : Ext) (payload : JSON) (v : JSValue),
          hasKeypair instance = true /\
          handleBigInt rt handle = Ok h /\
          generateReencryptSignature rt instance h
            (contractAddress options) (userAddress options) w = (Ok s, w1) /\
          fetch rt
            (or_string (opt_gatewayUrl options) "https://gateway.sepolia.zama.ai"
             ++ "/reencrypt")
            (reencryptRequest h (sig_publicKey s) (signature s)
               (contractAddress options))
            (ext w1) = (Ok response, x2) /\
          ok response = true /\
          json response = Ok payload /\
          value_of payload = Ok v /\
          BigInt rt v = Ok (value r) /\
          r = {| value := value r; raw := VBigInt (value r) |}) /\
    (forall (h : Z) (s : EIP712Signature) (w1 : World Ext)
            (response : Response) (x2 : Ext),
        hasKeypair instance = true ->
        handleBigInt rt handle = Ok h ->
        generateReencryptSignature rt instance h
          (contractAddress options) (userAddress options) w = (Ok s, w1) ->
        fetch rt
          (or_string (opt_gatewayUrl options) "https://gateway.sepolia.zama.ai"
           ++ "/reencrypt")
          (reencryptRequest h (sig_publicKey s) (signature s)
             (contractAddress options))
          (ext w1) = (Ok response, x2) ->
        ok response = false ->
        fst (decryptValue rt instance handle options w) =
        Threw (mkError ("Decryption failed: Gateway request failed: "
                        ++ statusText response))) /\
    (forall (e : Error) (w' : World Ext),
        decryptValue rt instance handle options w = (Threw e, w') ->
        exists m : string, e = mkError ("Decryption failed: " ++ m)).
Proof.
  intros Ext rt instance handle options w. repeat split.
  - intros r w' H.
    destruct (decryptValue_fulfilled rt _ _ _ _ _ _ H)
      as (h & s & w1 & response & x2 & payload & v
          & Hk & Hh & Hs & Hf & Hok & Hj & Hv & Hz & Hraw).
    exists h, s, w1, response, x2, payload, v.
    repeat (split; [assumption|]).
    destruct r as [z rw]. cbn in Hraw |- *. now rewrite Hraw.
  - intros h s w1 response x2 Hk Hh Hs Hf Hok.
    rewrite (decryptValue_after_signature rt _ _ _ h s w w1 Hk Hh Hs).
    unfold requestDecryption. unfold_monad.
    rewrite Hf, Hok. reflexivity.
  - unfold decryptValue. unfold_monad. intros e w'.
    match goal with
    | |- context [match ?body w with pair _ _ => _ end] =>
        destruct (body w) as [[r|e0] w0]
    end.
    + discriminate.
    + intros [= <- _]. now exists (message e0).
Qed.

(** A gateway that answers 500 to a signed request. *)
Lemma decryptValue_all_or_nothing_witness :
  fst (decryptValue Stub.runtime Stub.localInstance (HBigInt 7) Stub.options
         (Stub.start (Stub.script [Stub.reply 500 "Internal Server Error" JNull])))
  = Threw (mkError
      "Decryption failed: Gateway request failed: Internal Server Error").
Proof.
  refine (proj1 (proj2 (decryptValue_all_or_nothing _ Stub.runtime
                   Stub.localInstance (HBigInt 7) Stub.options _))
            7%Z {| signature := "0xsig"; sig_publicKey := "0x04ab" |} _
            {| ok := false; status := 500;
               statusText := "Internal Server Error"; json := Ok JNull |} _
            _ _ _ _ _).
  - reflexivity.
  - reflexivity.
  - vm_compute. reflexivity.
  - vm_compute. reflexivity.
  - reflexivity.
Defined.

(** C1 as stated asks for a failure that carries the HTTP status of the
    response. Two gateways answer the same request over HTTP/2 (empty
    status text), one with status 500 and one with status 404: the two
    rejections are the same error, which holds neither number. *)
Lemma decryptValue_failure_omits_status_code :
  status {| ok := false; status := 500; statusText := ""; json := Ok JNull |}
  <> status {| ok := false; status := 404; statusText := ""; json := Ok JNull |}
  /\
  fst (decryptValue Stub.runtime Stub.localInstance (HBigInt 7) Stub.options
         (Stub.start (Stub.script
            [Ok {| ok := false; status := 500; statusText := "";
                   json := Ok JNull |}])))
  = Threw (mkError "Decryption failed: Gateway request failed: ")
  /\
  fst (decryptValue Stub.runtime Stub.localInstance (HBigInt 7) Stub.options
         (Stub.start (Stub.script
            [Ok {| ok := false; status := 404; statusText := "";
                   json := Ok JNull |}])))
  = Threw (mkError "Decryption failed: Gateway request failed: ").
Proof.
  split; [cbn; discriminate|]. split; vm_compute; reflexivity.
Qed.

Lemma fetched_app (l l' : list Event) :
  fetched (l ++ l') = fetched l ++ fetched l'.
Proof.
  induction l as [|ev l IH]; [reflexivity|].
  destruct ev; cbn; now rewrite IH.
Qed.

Lemma or_string_spec (o : option string) (d : string) :
  or_string o d =
  match o with
  | Some u => if u =? "" then d else u
  | None => d
  end.
Proof.
  unfold or_string, or_else, truthy.
  destruct o as [u|]; [|reflexivity].
  now destruct (u =? "").
Qed.

(** The URL that [decryptValue] fetches. In every run that gets as far as
    the gateway (the instance has a keypair, the handle converts, the
    signature is generated) exactly one URL is fetched: the per-call
    [gatewayUrl] of [options] followed by ["/reencrypt"] when that option
    is a non-empty string, and ["https://gateway.sepolia.zama.ai/reencrypt"]
    when it is left out or empty. The gateway URL the instance was created
    with is not among the things the code reads. *)
Theorem decryptValue_gateway_url :
  forall (Ext : Type) (rt : Runtime Ext) (instance : FhevmInstance)
         (handle : Handle) (options : DecryptOptions) (w w1 : World Ext)
         (h : Z) (s : EIP712Signature),
    hasKeypair instance = true ->
    handleBigInt rt handle = Ok h ->
    generateReencryptSignature rt instance h
      (contractAddress options) (userAddress options) w = (Ok s, w1) ->
    fetched (trace (snd (decryptValue rt instance handle options w))) =
    fetched (trace w) ++
    [(match opt_gatewayUrl options with
      | Some u => if u =? "" then "https://gateway.sepolia.zama.ai" else u
      | None => "https://gateway.sepolia.zama.ai"
      end ++ "/reencrypt")%string].
Proof.
  intros Ext rt instance handle options w w1 h s Hk Hh Hs.
  rewrite (decryptValue_after_signature rt _ _ _ h s w w1 Hk Hh Hs).
  rewrite <- or_string_spec.
  assert (Hw1 : fetched (trace w1) = fetched (trace w)).
  { apply generateReencryptSignature_fulfilled in Hs. destruct Hs as [_ Hs].
    apply signEIP712_fulfilled in Hs.
    destruct Hs as (_ & signer & x1 & x2 & _ & _ & ->).
    cbn [trace]. rewrite fetched_app. cbn. now rewrite app_nil_r. }
  pose proof (requestDecryption_trace rt h (sig_publicKey s) (signature s)
                (contractAddress options)
                (or_string (opt_gatewayUrl options)
                   "https://gateway.sepolia.zama.ai") w1) as Ht.
  unfold_monad.
  destruct (requestDecryption rt h _ _ _ _ w1) as [[z|e] w2];
    cbn [snd] in *; rewrite Ht, fetched_app, Hw1; reflexivity.
Qed.

(** A per-call override that is set goes before the default. *)
Lemma decryptValue_gateway_url_witness :
  fetched (trace (snd (decryptValue Stub.runtime Stub.localInstance (HBigInt 7)
    {| contractAddress := "0x5FbDB2315678afecb367f032d93F642f64180aa3";
       userAddress := "0xf39Fd6e51aad88F6F4ce6aB8827279cffFb92266";
       opt_gatewayUrl := Some "http://localhost:8545" |}
    (Stub.start (Stub.script
       [Stub.reply 200 "OK" (JObject [("value", JString "42")])])))))
  = [] ++ [("http://localhost:8545" ++ "/reencrypt")%string].
Proof.
  refine (decryptValue_gateway_url _ Stub.runtime Stub.localInstance (HBigInt 7)
            _ _ _ 7%Z {| signature := "0xsig"; sig_publicKey := "0x04ab" |}
            _ _ _).
  - reflexivity.
  - reflexivity.
  - vm_compute. reflexivity.
Defined.

(** C3 on an instance created for [localhost], whose configured gateway
    is [http://localhost:8545], with options that give no override: the
    claim has the request go to the instance's gateway; [decryptValue]
    sends it to the Sepolia gateway. *)
Theorem decryptValue_skips_instance_gateway :
  ip_gatewayUrl (createdWith Stub.localInstance) = Some "http://localhost:8545" /\
  opt_gatewayUrl Stub.options = None /\
  fetched (trace (snd (decryptValue Stub.runtime Stub.localInstance (HBigInt 7)
    Stub.options
    (Stub.start (Stub.script
       [Stub.reply 200 "OK" (JObject [("value", JString "42")])])))))
  = ["https://gateway.sepolia.zama.ai/reencrypt"].
Proof. repeat split; vm_compute; reflexivity. Qed.

(** What holds of C2 on every input: name, version, verifying contract,
    schema and message of the typed data; the chain id is a constant. *)
Lemma reencryptTypedData_shape (publicKey contract : string) (h : Z) :
  reencryptTypedData publicKey h contract =
  {| td_domain := {| dom_name := "Authorization token"; dom_version := "1";
                     dom_chainId := Some (Finite 11155111);
                     dom_verifyingContract := contract |};
     td_types := [("Reencrypt", [("publicKey", "bytes"); ("handle", "uint256")])];
     td_message := [("publicKey", publicKey); ("handle", bigint_toString h)] |}.
Proof. reflexivity. Qed.

(** C2 on a wallet connected to the local chain 31337, with an instance
    created for [localhost]: [decryptValue] has the wallet sign a domain
    whose chain id is 11155111, where [createReencryptionPermit], given the
    same wallet, signs for chain 31337. *)
Theorem decryptValue_signs_sepolia_chain_id :
  Stub.chainId (Stub.script
    [Stub.reply 200 "OK" (JObject [("value", JString "42")])]) = 31337%Z /\
  signedChainIds (trace (snd (decryptValue Stub.runtime Stub.localInstance
    (HBigInt 7) Stub.options
    (Stub.start (Stub.script
       [Stub.reply 200 "OK" (JObject [("value", JString "42")])])))))
  = [Some (Finite 11155111)] /\
  signedChainIds (trace (snd (createReencryptionPermit
    Stub.localInstance (contractAddress Stub.options) (userAddress Stub.options)
    Stub.signer
    (Stub.start (Stub.script
       [Stub.reply 200 "OK" (JObject [("value", JString "42")])])))))
  = [Some (Finite 31337)].
Proof. repeat split; vm_compute; reflexivity. Qed.

(** Whatever the gateway sent, [raw] is the parsed [value] once more. *)
Lemma decryptValue_raw_is_value :
  forall (Ext : Type) (rt : Runtime Ext) (instance : FhevmInstance)
         (handle : Handle) (options : DecryptOptions) (w w' : World Ext)
         (r : DecryptResult),
    decryptValue rt instance handle options w = (Ok r, w') ->
    raw r = VBigInt (value r).
Proof.
  intros Ext rt instance handle options w w' r H.
  destruct (decryptValue_fulfilled rt _ _ _ _ _ _ H)
    as (h & s & w1 & response & x2 & payload & v & H').
  tauto.
Qed.

(** C7 on a gateway whose payload has a second member [proof]: [value] is
    the parsed integer 42, and [raw] is that integer too, not the payload. *)
Theorem decryptValue_raw_drops_payload :
  fst (decryptValue Stub.runtime Stub.localInstance (HBigInt 7) Stub.options
         (Stub.start (Stub.script
            [Stub.reply 200 "OK"
               (JObject [("value", JString "42"); ("proof", JString "0xabc")])])))
  = Ok {| value := 42%Z; raw := VBigInt 42 |} /\
  VBigInt 42 <>
  VJson (JObject [("value", JString "42"); ("proof", JString "0xabc")]).
Proof. split; [vm_compute; reflexivity | discriminate]. Qed.

(** ** The instance manager *)

(** [createFhevmInstance] hands [mergedConfig config] to [createInstance],
    after [initFhevm], and makes no other call. *)
Lemma createFhevmInstance_trace :
  forall (Ext : Type) (rt : Runtime Ext) (config : FhevmConfig) (w : World Ext),
    let log := trace (snd (createFhevmInstance rt config w)) in
    log = trace w ++ [EvInitFhevm] \/
    log = trace w ++ [EvInitFhevm; EvCreateInstance (mergedConfig config)].
Proof.
  intros Ext rt config w. unfold createFhevmInstance. unfold_monad. cbn zeta.
  destruct (initFhevm rt (ext w)) as [[[]|e] x1]; cbn [ext trace snd]; [|now left].
  right.
  destruct (createInstance rt (mergedConfig config) x1) as [[i|e] x2];
    cbn [snd trace]; now rewrite <- app_assoc.
Qed.

Lemma overrides_or_else (o : option string) (d : string) :
  overrides o d (or_else o (Some d)).
Proof.
  unfold overrides, or_else, truthy. split.
  - intros u -> Hu. apply String.eqb_neq in Hu. now rewrite Hu.
  - now intros [-> | ->].
Qed.

(** A name that is no row of the table and no inherited property gets the
    [sepolia] row. *)
Lemma getNetworkDefaults_row (name : string) :
  inherited name = false ->
  getNetworkDefaults name = Row (if name =? "localhost" then localhost else sepolia).
Proof.
  intros Hi. unfold getNetworkDefaults, defaults_get, defaults. cbn [assoc].
  rewrite (String.eqb_sym "sepolia" name), (String.eqb_sym "localhost" name).
  destruct (name =? "sepolia") eqn:Hs.
  - apply String.eqb_eq in Hs. subst name. reflexivity.
  - destruct (name =? "localhost"); [reflexivity|]. now rewrite Hi.
Qed.

(** The name of an inherited property is looked up with success: what comes
    back is no row, and every merged field it was to fill is [undefined]. *)
Lemma mergedConfig_inherited_name :
  getNetworkDefaults "constructor" = Inherited "constructor" /\
  mergedConfig {| network := Some "constructor"; gatewayUrl := None;
                  publicKey := None; kmsContractAddress := None;
                  aclContractAddress := None |}
  = {| ip_kmsContractAddress := None; ip_aclContractAddress := None;
       ip_gatewayUrl := None; ip_publicKey := None |}.
Proof. split; reflexivity. Qed.

(** C6, as the code has it. [{network: "localhost"}] resolves to the
    gateway [http://localhost:8545] and the zero address for the KMS and
    the ACL contract. For every configuration whose network name (["sepolia"]
    when left out or empty) is not the name of a property that object
    literals inherit: the row is [localhost] for ["localhost"] and [sepolia]
    for every other name, recognized or not; each of [gatewayUrl],
    [kmsContractAddress], [aclContractAddress] set to a non-empty string
    goes before the row's value, each left out or empty takes the row's
    value; [publicKey] is passed on as it is. *)
Theorem mergedConfig_resolution :
  mergedConfig {| network := Some "localhost"; gatewayUrl := None;
                  publicKey := None; kmsContractAddress := None;
                  aclContractAddress := None |}
  = {| ip_kmsContractAddress := Some "0x0000000000000000000000000000000000000000";
       ip_aclContractAddress := Some "0x0000000000000000000000000000000000000000";
       ip_gatewayUrl := Some "http://localhost:8545";
       ip_publicKey := None |} /\
  forall config : FhevmConfig,
    inherited (or_string (network config) "sepolia") = false ->
    forall row : NetworkDefaults,
      row = (if or_string (network config) "sepolia" =? "localhost"
             then localhost else sepolia) ->
      overrides (gatewayUrl config) (nd_gatewayUrl row)
                (ip_gatewayUrl (mergedConfig config)) /\
      overrides (kmsContractAddress config) (nd_kmsContractAddress row)
                (ip_kmsContractAddress (mergedConfig config)) /\
      overrides (aclContractAddress config) (nd_aclContractAddress row)
                (ip_aclContractAddress (mergedConfig config)) /\
      ip_publicKey (mergedConfig config) = publicKey config.
Proof.
  split; [reflexivity|].
  intros config Hi row ->. unfold mergedConfig.
  rewrite (getNetworkDefaults_row _ Hi). cbn [member_field].
  cbn [ip_gatewayUrl ip_kmsContractAddress ip_aclContractAddress ip_publicKey].
  repeat split; try apply overrides_or_else.
Qed.

(** An unrecognized network with one field set: the set field wins, the
    others come from the [sepolia] row. *)
Lemma mergedConfig_resolution_witness :
  ip_gatewayUrl (mergedConfig
    {| network := Some "mainnet"; gatewayUrl := Some "https://gw.example";
       publicKey := None; kmsContractAddress := None;
       aclContractAddress := None |}) = Some "https://gw.example" /\
  ip_kmsContractAddress (mergedConfig
    {| network := Some "mainnet"; gatewayUrl := Some "https://gw.example";
       publicKey := None; kmsContractAddress := None;
       aclContractAddress := None |})
  = Some "0x9D6891A6240D6130c54ae243d8005063D05fE14b".
Proof.
  destruct (proj2 mergedConfig_resolution
              {| network := Some "mainnet"; gatewayUrl := Some "https://gw.example";
                 publicKey := None; kmsContractAddress := None;
                 aclContractAddress := None |}
              eq_refl sepolia eq_refl) as ((Hg & _) & (_ & Hk) & _).
  split.
  - apply Hg; [reflexivity | discriminate].
  - apply Hk. now left.
Defined.

(** C6 as stated has every explicitly set field override the network
    default. A configuration for [localhost] that sets [gatewayUrl] to the
    empty string: the merged gateway is the row's, not the field's. *)
Lemma mergedConfig_empty_field_falls_back :
  gatewayUrl {| network := Some "localhost"; gatewayUrl := Some "";
                publicKey := None; kmsContractAddress := None;
                aclContractAddress := None |} = Some "" /\
  ip_gatewayUrl (mergedConfig
    {| network := Some "localhost"; gatewayUrl := Some "";
       publicKey := None; kmsContractAddress := None;
       aclContractAddress := None |}) = Some "http://localhost:8545" /\
  Some "http://localhost:8545" <> Some "".
Proof. repeat split. discriminate. Qed.

(** ** The facade *)

(** C8. An attempt of [initialize], started in any state [st] of the hook
    and settling in any state [st'] (the one it started, or one that other
    attempts have changed meanwhile): at its start [error] is cleared and
    [loading] is set, which is the state shown while [createFhevmInstance]
    is in flight; once it has settled [loading] is unset and [ready] is
    [isInstanceReady] of the instance the hook then holds. After a
    fulfilled creation that instance is the new one; after a rejected one
    [error] holds the rejection, [instance] is [null] and [ready] is unset.
    An attempt that runs alone is its start, the creation call and its
    settling, and makes no call but that one. *)
Theorem initialize_lifecycle :
  forall (Ext : Type) (rt : Runtime Ext) (config : FhevmConfig)
         (st st' : useFhevm.State) (w : World Ext) (o : Outcome FhevmInstance),
    (useFhevm.error (useFhevm.initialize_begin st) = None /\
     useFhevm.loading (useFhevm.initialize_begin st) = true) /\
    (useFhevm.loading (useFhevm.initialize_settle o st') = false /\
     useFhevm.ready (useFhevm.initialize_settle o st') =
       isInstanceReady (useFhevm.instance (useFhevm.initialize_settle o st')) /\
     match o with
     | Ok newInstance =>
         useFhevm.instance (useFhevm.initialize_settle o st') = Some newInstance /\
         useFhevm.ready (useFhevm.initialize_settle o st') = hasKeypair newInstance
     | Threw err =>
         useFhevm.error (useFhevm.initialize_settle o st') = Some err /\
         useFhevm.instance (useFhevm.initialize_settle o st') = None /\
         useFhevm.ready (useFhevm.initialize_settle o st') = false
     end) /\
    useFhevm.initialize rt config st w =
    (useFhevm.initialize_settle (fst (createFhevmInstance rt config w))
       (useFhevm.initialize_begin st),
     snd (createFhevmInstance rt config w)).
Proof.
  intros Ext rt config st st' w o. split; [|split].
  - split; reflexivity.
  - destruct o as [i|e]; cbn; auto.
  - unfold useFhevm.initialize.
    now destruct (createFhevmInstance rt config w) as [res w1].
Qed.

(** Two runs of the hook on the scripted engine: a created instance with
    a keypair, and a rejected creation. *)
Example initialize_runs :
  fst (useFhevm.initialize Stub.runtime emptyConfig useFhevm.initial
         (Stub.start {| Stub.wallet := true; Stub.chainId := 11155111;
                        Stub.signatures := []; Stub.responses := [];
                        Stub.engine := [Some true] |}))
  = {| useFhevm.instance :=
         Some {| hasKeypair := true; getPublicKey := "0x04ab";
                 createdWith := mergedConfig emptyConfig |};
       useFhevm.ready := true; useFhevm.error := None;
       useFhevm.loading := false |} /\
  fst (useFhevm.initialize Stub.runtime emptyConfig useFhevm.initial
         (Stub.start {| Stub.wallet := true; Stub.chainId := 11155111;
                        Stub.signatures := []; Stub.responses := [];
                        Stub.engine := [None] |}))
  = {| useFhevm.instance := None; useFhevm.ready := false;
       useFhevm.error :=
         Some (mkError "Failed to create FHEVM instance: invalid address");
       useFhevm.loading := false |}.
Proof. split; vm_compute; reflexivity. Qed.

(** C5. With [ready] unset in what [useFhevm] returned, [encrypt],
    [decrypt] and [decryptMultiple] are rejected with the error
    ["FHEVM instance not ready. Wait for initialization."]; the world, its
    log of calls included, and the state of the hook are as before, and
    [encryptValue] and [decryptValue] are not run. *)
Theorem facade_rejects_when_not_ready :
  forall (Ext : Type) (rt : Runtime Ext)
         (encryptValue : FhevmInstance -> PlainValue -> EncryptionType ->
                         M Ext EncryptedValue)
         (fhevm : useFhevm.State) (value : PlainValue) (type : option EncryptionType)
         (handle : Handle) (handles : list Handle) (options : DecryptOptions)
         (est : useEncrypt.State) (dst : useDecrypt.State) (w : World Ext),
    useFhevm.ready fhevm = false ->
    useEncrypt.encrypt encryptValue fhevm value type est w = (Threw notReady, est, w) /\
    useDecrypt.decrypt rt fhevm handle options dst w = (Threw notReady, dst, w) /\
    useDecrypt.decryptMultiple rt fhevm handles options dst w = (Threw notReady, dst, w).
Proof.
  intros Ext rt encryptValue fhevm value type handle handles options est dst w Hr.
  unfold useEncrypt.encrypt, useDecrypt.decrypt, useDecrypt.decryptMultiple.
  rewrite Hr. destruct (useFhevm.instance fhevm); auto.
Qed.

(** A hook whose instance was created without a keypair. *)
Lemma facade_rejects_when_not_ready_witness :
  useDecrypt.decrypt Stub.runtime
    (useFhevm.initialize_settle
       (Ok {| hasKeypair := false; getPublicKey := "";
              createdWith := mergedConfig emptyConfig |})
       useFhevm.initial)
    (HBigInt 7) Stub.options useDecrypt.initial
    (Stub.start (Stub.script
       [Stub.reply 200 "OK" (JObject [("value", JString "42")])]))
  = (Threw notReady, useDecrypt.initial,
     Stub.start (Stub.script
       [Stub.reply 200 "OK" (JObject [("value", JString "42")])])).
Proof.
  refine (proj1 (proj2 (facade_rejects_when_not_ready _ Stub.runtime
            (fun _ _ _ => ret {| data := [1%Z]; handles := ["0x01"];
                                 inputProof := "0x" |})
            _ (PBoolean true) None (HBigInt 7) [] Stub.options
            useEncrypt.initial useDecrypt.initial _ _))).
  reflexivity.
Defined.

(** ** Signature verification *)

(** C9. [verifyDecryptSignature] always gives a boolean: [true] exactly
    when [verifyMessage], on the public key as the message, recovers an
    address whose [toLowerCase] is that of [expectedAddress]; [false] when
    the recovery throws. *)
Theorem verifyDecryptSignature_total :
  forall (Ext : Type) (rt : Runtime Ext) (signature publicKey expectedAddress : string),
  exists b : bool,
    verifyDecryptSignature rt signature publicKey expectedAddress = Ok b /\
    (b = true <->
     exists recovered : string,
       verifyMessage rt publicKey signature = Ok recovered /\
       toLowerCase rt recovered = toLowerCase rt expectedAddress) /\
    (forall e : Error, verifyMessage rt publicKey signature = Threw e -> b = false).
Proof.
  intros Ext rt sg pk expected. unfold verifyDecryptSignature.
  destruct (verifyMessage rt pk sg) as [recovered|e] eqn:Hv.
  - eexists. split; [reflexivity|]. split; [|discriminate]. split.
    + intros Hb. apply String.eqb_eq in Hb. eauto.
    + intros (r & [= <-] & Hr). now apply String.eqb_eq.
  - exists false. split; [reflexivity|]. split; [|reflexivity]. split.
    + discriminate.
    + now intros (r & Hr & _).
Qed.

(** A checksummed address matches its lower-case spelling; a signature
    that does not verify gives [false]. *)
Example verifyDecryptSignature_runs :
  verifyDecryptSignature Stub.runtime "signed:0x04ab" "0x04ab"
    "0xabcdef0123456789abcdef0123456789abcdef01" = Ok true /\
  verifyDecryptSignature Stub.runtime "garbage" "0x04ab"
    "0xabcdef0123456789abcdef0123456789abcdef01" = Ok false.
Proof. split; vm_compute; reflexivity. Qed.

(* ================================================================= *)
(** * Further properties of the decryption session *)

Section DecryptLog.

Context {Ext : Type} (rt : Runtime Ext).

(** What [signEIP712] adds to the log: nothing without a wallet, the
    request for a signer, and the signing request once a signer is there. *)
Lemma signEIP712_log (td : TypedData) (userAddress : string) (w : World Ext) :
  exists evs : list Event,
    trace (snd (signEIP712 rt td userAddress w)) = trace w ++ evs /\
    (evs = [] \/ evs = [EvGetSigner] \/ evs = [EvGetSigner; EvSignTypedData td]) /\
    (forall sg : string, fst (signEIP712 rt td userAddress w) = Ok sg ->
                         evs = [EvGetSigner; EvSignTypedData td]).
Proof.
  unfold signEIP712.
  destruct (window_ethereum rt (ext w)).
  - unfold_monad.
    destruct (getSigner rt (ext w)) as [[signer|e] x1]; cbn [ext trace].
    + exists [EvGetSigner; EvSignTypedData td].
      destruct (signer_signTypedData signer td x1) as [[sg|e] x2];
        cbn [snd fst trace]; rewrite <- app_assoc; auto.
    + exists [EvGetSigner]. cbn [snd fst trace]. repeat split; auto. discriminate.
  - exists []. unfold throw. cbn [snd fst]. rewrite app_nil_r.
    repeat split; auto. discriminate.
Qed.

(** What one [decryptValue] adds to the log: a prefix of "get the signer,
    sign the typed data of this handle, fetch"; all three when it is
    fulfilled. *)
Lemma decryptValue_log (instance : FhevmInstance) (handle : Handle)
      (options : DecryptOptions) (w : World Ext) :
  exists evs : list Event,
    trace (snd (decryptValue rt instance handle options w)) = trace w ++ evs /\
    (evs = [] \/ evs = [EvGetSigner] \/
     (exists h : Z,
         handleBigInt rt handle = Ok h /\
         (evs = [EvGetSigner;
                 EvSignTypedData (reencryptTypedData (getPublicKey instance) h
                                    (contractAddress options))] \/
          exists sg : string,
            evs = [EvGetSigner;
                   EvSignTypedData (reencryptTypedData (getPublicKey instance) h
                                      (contractAddress options));
                   EvFetch (or_string (opt_gatewayUrl options)
                              "https://gateway.sepolia.zama.ai" ++ "/reencrypt")
                     (reencryptRequest h (getPublicKey instance) sg
                        (contractAddress options))]))) /\
    (forall r : DecryptResult,
        fst (decryptValue rt instance handle options w) = Ok r ->
        length (fetched evs) = 1%nat).
Proof.
  destruct (decryptValue rt instance handle options w) as [o w'] eqn:Hrun.
  cbn [fst snd].
  unfold decryptValue, try_catch in Hrun.
  destruct (hasKeypair instance); cbn [negb] in Hrun.
  2:{ unfold throw in Hrun. injection Hrun as <- <-. exists [].
      rewrite app_nil_r. repeat split; auto. discriminate. }
  unfold bind at 1 in Hrun. unfold lift in Hrun.
  destruct (handleBigInt rt handle) as [h|e] eqn:Hh.
  2:{ unfold throw in Hrun. injection Hrun as <- <-. exists [].
      rewrite app_nil_r. repeat split; auto. discriminate. }
  unfold bind at 1 in Hrun.
  unfold generateReencryptSignature, try_catch in Hrun.
  unfold bind at 1 in Hrun.
  destruct (signEIP712_log
              (reencryptTypedData (getPublicKey instance) h (contractAddress options))
              (userAddress options) w) as (evs & Ht & Hshape & Hok).
  destruct (signEIP712 rt _ (userAddress options) w) as [[sg|e] w1];
    cbn [fst snd] in *.
  - specialize (Hok sg eq_refl). subst evs. unfold ret at 1 in Hrun.
    cbn [signature sig_publicKey] in Hrun.
    pose proof (requestDecryption_trace rt h (getPublicKey instance) sg
                  (contractAddress options)
                  (or_string (opt_gatewayUrl options)
                     "https://gateway.sepolia.zama.ai") w1) as Hr.
    eexists. split; [|split].
    + unfold bind, ret, throw in Hrun.
      destruct (requestDecryption rt h _ sg _ _ w1) as [[z|e] w2];
        cbn [snd] in *; injection Hrun as <- <-;
        rewrite Hr, Ht, <- app_assoc; reflexivity.
    + right. right. exists h. split; [reflexivity|]. right. exists sg. reflexivity.
    + intros _ _. reflexivity.
  - unfold throw in Hrun. injection Hrun as <- <-.
    exists evs. split; [exact Ht|]. split.
    + destruct Hshape as [->|[->| ->]]; auto.
      right. right. exists h. auto.
    + discriminate.
Qed.

End DecryptLog.

Lemma signedChainIds_app (l l' : list Event) :
  signedChainIds (l ++ l') = signedChainIds l ++ signedChainIds l'.
Proof.
  induction l as [|ev l IH]; [reflexivity|].
  destruct ev; cbn; now rewrite IH.
Qed.

Section DecryptRequests.

Context {Ext : Type} (rt : Runtime Ext).

(** The requests and signatures among what one [decryptValue] logs. *)
Lemma decryptValue_requests (instance : FhevmInstance) (handle : Handle)
      (options : DecryptOptions) (w : World Ext) :
  exists evs : list Event,
    trace (snd (decryptValue rt instance handle options w)) = trace w ++ evs /\
    (fetched evs = [] \/
     fetched evs = [(or_string (opt_gatewayUrl options)
                       "https://gateway.sepolia.zama.ai" ++ "/reencrypt")%string]) /\
    (forall r : DecryptResult,
        fst (decryptValue rt instance handle options w) = Ok r ->
        fetched evs = [(or_string (opt_gatewayUrl options)
                          "https://gateway.sepolia.zama.ai" ++ "/reencrypt")%string]) /\
    (length (signedChainIds evs) <= 1)%nat /\
    (length (fetched evs) <= length (signedChainIds evs))%nat.
Proof.
  destruct (decryptValue_log rt instance handle options w)
    as (evs & Ht & Hshape & Hok).
  exists evs. split; [exact Ht|].
  destruct Hshape as [->|[->|(h & _ & [->|(sg & ->)])]]; cbn;
    repeat split; auto; intros r Hr; specialize (Hok r Hr); discriminate Hok.
Qed.

End DecryptRequests.

(** X1. Without a keypair [decryptValue] is rejected with
    ["Decryption failed: Instance does not have a keypair"] before anything
    else is looked at: the world and its log are as before. A batch with at
    least one handle is rejected in the same way, at its first element. *)
Theorem decryptValue_without_keypair :
  forall (Ext : Type) (rt : Runtime Ext) (instance : FhevmInstance)
         (handle : Handle) (rest : list Handle) (options : DecryptOptions)
         (w : World Ext),
    hasKeypair instance = false ->
    decryptValue rt instance handle options w =
    (Threw (mkError "Decryption failed: Instance does not have a keypair"), w) /\
    decryptBatch rt instance (handle :: rest) options w =
    (Threw (mkError "Decryption failed: Instance does not have a keypair"), w).
Proof.
  intros Ext rt instance handle rest options w Hk.
  assert (H : decryptValue rt instance handle options w =
              (Threw (mkError "Decryption failed: Instance does not have a keypair"),
               w)).
  { unfold decryptValue, try_catch. rewrite Hk. reflexivity. }
  split; [exact H|]. rewrite decryptBatch_cons, H. reflexivity.
Qed.

Lemma decryptValue_without_keypair_witness :
  decryptValue Stub.runtime
    {| hasKeypair := false; getPublicKey := ""; createdWith := mergedConfig emptyConfig |}
    (HBigInt 7) Stub.options
    (Stub.start (Stub.script
       [Stub.reply 200 "OK" (JObject [("value", JString "42")])]))
  = (Threw (mkError "Decryption failed: Instance does not have a keypair"),
     Stub.start (Stub.script
       [Stub.reply 200 "OK" (JObject [("value", JString "42")])])).
Proof.
  refine (proj1 (decryptValue_without_keypair _ Stub.runtime _ (HBigInt 7) []
                   Stub.options _ _)).
  reflexivity.
Defined.

(** X2. With a keypair, a handle that [BigInt] refuses with [e] gives the
    rejection ["Decryption failed: " ++ message e]; a handle that converts,
    in a page without [window.ethereum], gives the rejection that names the
    missing provider, wrapped twice. Neither asks for a signer, signs or
    fetches: the world and its log are as before. *)
Theorem decryptValue_fails_before_signing :
  forall (Ext : Type) (rt : Runtime Ext) (instance : FhevmInstance)
         (handle : Handle) (options : DecryptOptions) (w : World Ext),
    hasKeypair instance = true ->
    (forall e : Error,
        handleBigInt rt handle = Threw e ->
        decryptValue rt instance handle options w =
        (Threw (mkError ("Decryption failed: " ++ message e)), w)) /\
    (forall h : Z,
        handleBigInt rt handle = Ok h ->
        window_ethereum rt (ext w) = false ->
        decryptValue rt instance handle options w =
        (Threw (mkError
           "Decryption failed: Failed to generate reencryption signature: No Ethereum provider found. Install MetaMask or provide a signer."),
         w)).
Proof.
  intros Ext rt instance handle options w Hk. split.
  - intros e He. unfold decryptValue, try_catch, bind, lift, throw.
    rewrite Hk, He. reflexivity.
  - intros h Hh Hw.
    unfold decryptValue, generateReencryptSignature, signEIP712,
      try_catch, bind, lift, throw.
    rewrite Hk, Hh. cbn [negb]. rewrite Hw. reflexivity.
Qed.

(** A handle that is no number, and a page without a wallet. *)
Lemma decryptValue_fails_before_signing_witness :
  decryptValue Stub.runtime Stub.localInstance (HString "0xzz") Stub.options
    (Stub.start (Stub.script []))
  = (Threw (mkError "Decryption failed: Cannot convert 0xzz to a BigInt"),
     Stub.start (Stub.script [])) /\
  decryptValue Stub.runtime Stub.localInstance (HString "12") Stub.options
    (Stub.start {| Stub.wallet := false; Stub.chainId := 31337;
                   Stub.signatures := []; Stub.responses := [];
                   Stub.engine := [] |})
  = (Threw (mkError
       "Decryption failed: Failed to generate reencryption signature: No Ethereum provider found. Install MetaMask or provide a signer."),
     Stub.start {| Stub.wallet := false; Stub.chainId := 31337;
                   Stub.signatures := []; Stub.responses := [];
                   Stub.engine := [] |}).
Proof.
  split.
  - refine (proj1 (decryptValue_fails_before_signing _ Stub.runtime
                     Stub.localInstance (HString "0xzz") Stub.options _ eq_refl)
              (mkError "Cannot convert 0xzz to a BigInt") _).
    reflexivity.
  - refine (proj2 (decryptValue_fails_before_signing _ Stub.runtime
                     Stub.localInstance (HString "12") Stub.options _ eq_refl)
              12%Z _ _); reflexivity.
Defined.

(** X3. Whatever wallet and gateway do, one call of [decryptValue] only
    adds to the log, and what it adds holds at most one signing request and
    at most one [fetch], the [fetch] never without the signing request
    before it; a fulfilled call made exactly one [fetch]. There is no
    retry. *)
Theorem decryptValue_one_signature_one_request :
  forall (Ext : Type) (rt : Runtime Ext) (instance : FhevmInstance)
         (handle : Handle) (options : DecryptOptions) (w : World Ext),
  exists evs : list Event,
    trace (snd (decryptValue rt instance handle options w)) = trace w ++ evs /\
    (length (signedChainIds evs) <= 1)%nat /\
    (length (fetched evs) <= length (signedChainIds evs))%nat /\
    (forall r : DecryptResult,
        fst (decryptValue rt instance handle options w) = Ok r ->
        length (fetched evs) = 1%nat).
Proof.
  intros Ext rt instance handle options w.
  destruct (decryptValue_requests rt instance handle options w)
    as (evs & Ht & _ & Hok & Hs & Hf).
  exists evs. repeat split; auto.
  intros r Hr. now rewrite (Hok r Hr).
Qed.

(** X4. The whole exchange of a fulfilled [decryptValue]: with a keypair,
    a handle that converts to [h], a wallet whose signer signs the typed
    data of [h] with [sg], and a gateway that answers the request with an
    [ok] response whose [value] member [BigInt] reads as [z], the result
    is [z] in both fields, and the log grew by exactly: get the signer,
    sign, POST [h] in base 10 with the instance's public key, [sg] and the
    contract address. *)
Theorem decryptValue_fulfilled_exchange :
  forall (Ext : Type) (rt : Runtime Ext) (instance : FhevmInstance)
         (handle : Handle) (options : DecryptOptions) (w : World Ext)
         (h z : Z) (signer : Signer Ext) (sg : string) (x1 x2 x3 : Ext)
         (response : Response) (payload : JSON) (v : JSValue),
    hasKeypair instance = true ->
    handleBigInt rt handle = Ok h ->
    window_ethereum rt (ext w) = true ->
    getSigner rt (ext w) = (Ok signer, x1) ->
    signer_signTypedData signer
      (reencryptTypedData (getPublicKey instance) h (contractAddress options)) x1
    = (Ok sg, x2) ->
    fetch rt
      (or_string (opt_gatewayUrl options) "https://gateway.sepolia.zama.ai"
       ++ "/reencrypt")
      (reencryptRequest h (getPublicKey instance) sg (contractAddress options)) x2
    = (Ok response, x3) ->
    ok response = true ->
    json response = Ok payload ->
    value_of payload = Ok v ->
    BigInt rt v = Ok z ->
    decryptValue rt instance handle options w =
    (Ok {| value := z; raw := VBigInt z |},
     {| ext := x3;
        trace := trace w ++
          [EvGetSigner;
           EvSignTypedData
             (reencryptTypedData (getPublicKey instance) h (contractAddress options));
           EvFetch
             (or_string (opt_gatewayUrl options) "https://gateway.sepolia.zama.ai"
              ++ "/reencrypt")
             {| method := "POST";
                headers := [("Content-Type", "application/json")];
                body := [("handle", bigint_toString h);
                         ("publicKey", getPublicKey instance);
                         ("signature", sg);
                         ("contractAddress", contractAddress options)] |}] |}).
Proof.
  intros Ext rt instance handle options w h z signer sg x1 x2 x3 response payload v
         Hk Hh Hw Hs Hg Hf Hok Hj Hv Hz.
  unfold decryptValue, generateReencryptSignature, signEIP712, requestDecryption.
  unfold_monad. rewrite Hk, Hh. cbn [negb]. rewrite Hw, Hs. cbn [ext trace].
  rewrite Hg. cbn [ext trace signature sig_publicKey].
  fold (reencryptRequest h (getPublicKey instance) sg (contractAddress options)).
  rewrite Hf, Hok. cbn [negb]. rewrite Hj, Hv, Hz.
  cbn [ext trace]. rewrite <- !app_assoc. reflexivity.
Qed.

Lemma decryptValue_fulfilled_exchange_witness :
  fst (decryptValue Stub.runtime Stub.localInstance (HString "12") Stub.options
         (Stub.start (Stub.script
            [Stub.reply 200 "OK" (JObject [("value", JString "42")])])))
  = Ok {| value := 42%Z; raw := VBigInt 42 |}.
Proof.
  refine (f_equal fst
    (decryptValue_fulfilled_exchange _ Stub.runtime Stub.localInstance
       (HString "12") Stub.options
       (Stub.start (Stub.script
          [Stub.reply 200 "OK" (JObject [("value", JString "42")])]))
       12%Z 42%Z Stub.signer "0xsig" _ _ _
       {| ok := true; status := 200; statusText := "OK";
          json := Ok (JObject [("value", JString "42")]) |}
       (JObject [("value", JString "42")]) (VJson (JString "42"))
       eq_refl eq_refl eq_refl eq_refl _ _ eq_refl eq_refl eq_refl eq_refl)).
  - vm_compute. reflexivity.
  - vm_compute. reflexivity.
Defined.

(** X5. The [userAddress] of the options takes no part in a decryption:
    [signEIP712] receives it and never reads it, so two calls that differ
    in nothing else sign the same data with whatever account the wallet
    offers, send the same request and end the same way. *)
Theorem decryptValue_ignores_userAddress :
  forall (Ext : Type) (rt : Runtime Ext) (instance : FhevmInstance)
         (handle : Handle) (contract : string) (gateway : option string)
         (user user' : string) (w : World Ext),
    decryptValue rt instance handle
      {| contractAddress := contract; userAddress := user;
         opt_gatewayUrl := gateway |} w
    = decryptValue rt instance handle
        {| contractAddress := contract; userAddress := user';
           opt_gatewayUrl := gateway |} w.
Proof. intros. reflexivity. Qed.

(** X6. A batch makes at most one [fetch] per handle, whatever happens on
    the way; a fulfilled batch has one result per handle and made exactly
    one [fetch] per handle, each to the same URL, also for handles that
    occur twice: nothing is cached. *)
Theorem decryptBatch_one_request_per_handle :
  forall (Ext : Type) (rt : Runtime Ext) (instance : FhevmInstance)
         (options : DecryptOptions) (handles : list Handle) (w : World Ext),
  exists evs : list Event,
    trace (snd (decryptBatch rt instance handles options w)) = trace w ++ evs /\
    (length (fetched evs) <= length handles)%nat /\
    (forall rs : list DecryptResult,
        fst (decryptBatch rt instance handles options w) = Ok rs ->
        length rs = length handles /\
        fetched evs =
        repeat (or_string (opt_gatewayUrl options)
                  "https://gateway.sepolia.zama.ai" ++ "/reencrypt")%string
               (length handles)).
Proof.
  intros Ext rt instance options handles.
  induction handles as [|h rest IH]; intros w.
  - exists []. rewrite decryptBatch_nil. cbn. rewrite app_nil_r.
    split; [reflexivity|]. split; [lia|]. intros rs [= <-]. auto.
  - rewrite decryptBatch_cons.
    destruct (decryptValue_requests rt instance h options w)
      as (e1 & Ht1 & Hshape & Hok1 & _ & _).
    destruct (decryptValue rt instance h options w) as [[r|e] w1];
      cbn [fst snd] in *.
    + specialize (Hok1 r eq_refl).
      destruct (IH w1) as (e2 & Ht2 & Hle & Hok2).
      exists (e1 ++ e2).
      destruct (decryptBatch rt instance rest options w1) as [[rs|e] w2];
        cbn [fst snd] in *; rewrite Ht2, Ht1, <- app_assoc;
        (split; [reflexivity|]); rewrite fetched_app, length_app, Hok1;
        cbn [length]; (split; [lia|]).
      * intros rs' [= <-]. destruct (Hok2 rs eq_refl) as [Hl Hf].
        cbn [length repeat app]. now rewrite Hl, Hf.
      * discriminate.
    + exists e1. split; [exact Ht1|]. split; [|discriminate].
      destruct Hshape as [-> | ->]; cbn; lia.
Qed.

(** ** The permit *)

(** [Number] leaves a bigint below 2^53 in absolute value as it is. *)
Lemma Number_of_bigint_safe (n : Z) :
  (- 9007199254740992 < n < 9007199254740992)%Z ->
  Number_of_bigint n = Finite n.
Proof.
  intros Hn. unfold Number_of_bigint.
  destruct (Z.ltb_spec (Z.abs n) 9007199254740992) as [_|H]; [reflexivity|lia].
Qed.

(** Beyond 2^53 it rounds to a double, and from 2^1024 on it gives
    [Infinity]. *)
Example Number_of_bigint_rounds :
  Number_of_bigint 9007199254740993 = Finite 9007199254740992 /\
  Number_of_bigint 9007199254740995 = Finite 9007199254740996 /\
  Number_of_bigint (-9007199254740993) = Finite (-9007199254740992) /\
  Number_of_bigint (2 ^ 1024) = Infinity false.
Proof. repeat split; vm_compute; reflexivity. Qed.

(** X7. [createReencryptionPermit], given a signer with a provider whose
    network has the bigint chain id [n] and who signs the permit with [sg],
    returns [sg]; what it had signed is the domain "Authorization token",
    version "1", chain id [Number(n)], verifying contract [contractAddress],
    with the schema [Permit(publicKey: bytes, owner: address)] binding the
    instance's public key to [userAddress]. [Number(n)] is [n] itself for
    every chain id below 2^53. It asks the network first and signs second,
    and it does not ask whether the instance has a keypair. *)
Theorem createReencryptionPermit_fulfilled :
  forall (Ext : Type) (instance : FhevmInstance) (contract user : string)
         (signer : Signer Ext) (getNetwork : External Ext Z) (w : World Ext)
         (n : Z) (sg : string) (x1 x2 : Ext),
    provider_getNetwork signer = Some getNetwork ->
    getNetwork (ext w) = (Ok n, x1) ->
    signer_signTypedData signer
      {| td_domain := {| dom_name := "Authorization token"; dom_version := "1";
                         dom_chainId := Some (Number_of_bigint n);
                         dom_verifyingContract := contract |};
         td_types := [("Permit", [("publicKey", "bytes"); ("owner", "address")])];
         td_message := [("publicKey", getPublicKey instance); ("owner", user)] |}
      x1 = (Ok sg, x2) ->
    createReencryptionPermit instance contract user signer w =
    (Ok sg,
     {| ext := x2;
        trace := trace w ++
          [EvGetNetwork;
           EvSignTypedData
             {| td_domain := {| dom_name := "Authorization token";
                                dom_version := "1";
                                dom_chainId := Some (Number_of_bigint n);
                                dom_verifyingContract := contract |};
                td_types :=
                  [("Permit", [("publicKey", "bytes"); ("owner", "address")])];
                td_message :=
                  [("publicKey", getPublicKey instance); ("owner", user)] |}] |}) /\
    ((0 <= n < 9007199254740992)%Z -> Number_of_bigint n = Finite n).
Proof.
  intros Ext instance contract user signer getNetwork w n sg x1 x2 Hp Hn Hs.
  split.
  - unfold createReencryptionPermit, permitTypedData. unfold_monad.
    rewrite Hp, Hn. cbn [ext trace]. rewrite Hs. cbn [ext trace].
    now rewrite <- app_assoc.
  - intros Hr. apply Number_of_bigint_safe. lia.
Qed.

Lemma createReencryptionPermit_fulfilled_witness :
  createReencryptionPermit
    {| hasKeypair := false; getPublicKey := "0x04ab";
       createdWith := mergedConfig emptyConfig |}
    "0x5FbDB2315678afecb367f032d93F642f64180aa3"
    "0xf39Fd6e51aad88F6F4ce6aB8827279cffFb92266"
    Stub.signer (Stub.start (Stub.script [Stub.reply 200 "OK" JNull]))
  = (Ok "0xsig",
     {| ext := {| Stub.wallet := true; Stub.chainId := 31337;
                  Stub.signatures := [];
                  Stub.responses := [Stub.reply 200 "OK" JNull];
                  Stub.engine := [] |};
        trace := [] ++
          [EvGetNetwork;
           EvSignTypedData
             {| td_domain := {| dom_name := "Authorization token";
                                dom_version := "1";
                                dom_chainId := Some (Number_of_bigint 31337);
                                dom_verifyingContract :=
                                  "0x5FbDB2315678afecb367f032d93F642f64180aa3" |};
                td_types :=
                  [("Permit", [("publicKey", "bytes"); ("owner", "address")])];
                td_message :=
                  [("publicKey", "0x04ab");
                   ("owner", "0xf39Fd6e51aad88F6F4ce6aB8827279cffFb92266")] |}] |}) /\
  Number_of_bigint 31337 = Finite 31337.
Proof.
  pose proof (createReencryptionPermit_fulfilled _
    {| hasKeypair := false; getPublicKey := "0x04ab";
       createdWith := mergedConfig emptyConfig |}
    "0x5FbDB2315678afecb367f032d93F642f64180aa3"
    "0xf39Fd6e51aad88F6F4ce6aB8827279cffFb92266"
    Stub.signer (fun x => (Ok (Stub.chainId x), x))
    (Stub.start (Stub.script [Stub.reply 200 "OK" JNull]))
    31337%Z "0xsig"
    (Stub.script [Stub.reply 200 "OK" JNull])
    {| Stub.wallet := true; Stub.chainId := 31337; Stub.signatures := [];
       Stub.responses := [Stub.reply 200 "OK" JNull]; Stub.engine := [] |}
    eq_refl eq_refl eq_refl) as [H1 H2].
  split; [exact H1|]. apply H2. lia.
Defined.

(** X8. The edges of [createReencryptionPermit]. A signer without a
    provider is asked to sign a domain whose chain id is [undefined], and
    the permit ends as that signing ends. A provider whose [getNetwork]
    rejects with [e] makes the permit reject with [e] itself, no prefix
    added, and nothing is signed. *)
Theorem createReencryptionPermit_edges :
  forall (Ext : Type) (instance : FhevmInstance) (contract user : string)
         (signer : Signer Ext) (w : World Ext),
    (provider_getNetwork signer = None ->
     createReencryptionPermit instance contract user signer w =
     (fst (signer_signTypedData signer
             (permitTypedData (getPublicKey instance) None contract user) (ext w)),
      {| ext := snd (signer_signTypedData signer
                       (permitTypedData (getPublicKey instance) None contract user)
                       (ext w));
         trace := trace w ++
           [EvSignTypedData
              (permitTypedData (getPublicKey instance) None contract user)] |})) /\
    (forall (getNetwork : External Ext Z) (e : Error) (x1 : Ext),
        provider_getNetwork signer = Some getNetwork ->
        getNetwork (ext w) = (Threw e, x1) ->
        createReencryptionPermit instance contract user signer w =
        (Threw e, {| ext := x1; trace := trace w ++ [EvGetNetwork] |})).
Proof.
  intros Ext instance contract user signer w. split.
  - intros Hp. unfold createReencryptionPermit. unfold_monad. rewrite Hp.
    destruct (signer_signTypedData signer _ (ext w)) as [[sg|e] x2]; reflexivity.
  - intros getNetwork e x1 Hp Hn.
    unfold createReencryptionPermit. unfold_monad. now rewrite Hp, Hn.
Qed.

Lemma createReencryptionPermit_edges_witness :
  signedChainIds (trace (snd (createReencryptionPermit Stub.localInstance
    "0x5FbDB2315678afecb367f032d93F642f64180aa3"
    "0xf39Fd6e51aad88F6F4ce6aB8827279cffFb92266"
    {| provider_getNetwork := None; signer_signTypedData := Stub.sign |}
    (Stub.start (Stub.script [Stub.reply 200 "OK" JNull])))))
  = [None].
Proof.
  rewrite (proj1 (createReencryptionPermit_edges _ Stub.localInstance
                    "0x5FbDB2315678afecb367f032d93F642f64180aa3"
                    "0xf39Fd6e51aad88F6F4ce6aB8827279cffFb92266"
                    {| provider_getNetwork := None;
                       signer_signTypedData := Stub.sign |}
                    (Stub.start (Stub.script [Stub.reply 200 "OK" JNull])))
                 eq_refl).
  reflexivity.
Defined.

(** ** Further properties of the instance manager *)

(** X9. How [createFhevmInstance] ends. When [initFhevm] rejects with [e]
    the creation rejects with ["Failed to create FHEVM instance: " ++
    message e] and [createInstance] is not called. When [initFhevm] is
    fulfilled, [createInstance] is called once, with the merged
    configuration: its instance is returned as it is, and its rejection is
    wrapped in the same way. *)
Theorem createFhevmInstance_outcomes :
  forall (Ext : Type) (rt : Runtime Ext) (config : FhevmConfig) (w : World Ext),
    (forall (e : Error) (x1 : Ext),
        initFhevm rt (ext w) = (Threw e, x1) ->
        createFhevmInstance rt config w =
        (Threw (mkError ("Failed to create FHEVM instance: " ++ message e)),
         {| ext := x1; trace := trace w ++ [EvInitFhevm] |})) /\
    (forall (x1 x2 : Ext) (o : Outcome FhevmInstance),
        initFhevm rt (ext w) = (Ok tt, x1) ->
        createInstance rt (mergedConfig config) x1 = (o, x2) ->
        createFhevmInstance rt config w =
        (match o with
         | Ok instance => Ok instance
         | Threw e =>
             Threw (mkError ("Failed to create FHEVM instance: " ++ message e))
         end,
         {| ext := x2;
            trace := trace w ++
              [EvInitFhevm; EvCreateInstance (mergedConfig config)] |})).
Proof.
  intros Ext rt config w. split.
  - intros e x1 Hi. unfold createFhevmInstance. unfold_monad. now rewrite Hi.
  - intros x1 x2 o Hi Hc. unfold createFhevmInstance. unfold_monad.
    rewrite Hi. cbn [ext trace]. rewrite Hc. cbn [ext trace].
    rewrite <- app_assoc. now destruct o.
Qed.

Lemma createFhevmInstance_outcomes_witness :
  fst (createFhevmInstance Stub.runtime emptyConfig
         (Stub.start {| Stub.wallet := true; Stub.chainId := 11155111;
                        Stub.signatures := []; Stub.responses := [];
                        Stub.engine := [None] |}))
  = Threw (mkError "Failed to create FHEVM instance: invalid address").
Proof.
  refine (f_equal fst
    (proj2 (createFhevmInstance_outcomes _ Stub.runtime emptyConfig
              (Stub.start {| Stub.wallet := true; Stub.chainId := 11155111;
                             Stub.signatures := []; Stub.responses := [];
                             Stub.engine := [None] |}))
       _ _ (Threw (mkError "invalid address")) eq_refl _)).
  vm_compute. reflexivity.
Defined.

Lemma truthy_or_else (o : option string) (d : string) :
  d <> "" -> truthy (or_else o (Some d)) = true.
Proof.
  intros Hd. unfold or_else. destruct (truthy o) eqn:Ho; [exact Ho|].
  cbn. apply String.eqb_neq in Hd. now rewrite Hd.
Qed.

(** X10. For every configuration whose network name is not the name of an
    inherited property, the gateway URL and the two contract addresses
    handed to [createInstance] are non-empty strings: none is [undefined]
    and none is empty, whatever the caller set or left out. *)
Theorem mergedConfig_complete :
  forall config : FhevmConfig,
    inherited (or_string (network config) "sepolia") = false ->
    truthy (ip_gatewayUrl (mergedConfig config)) = true /\
    truthy (ip_kmsContractAddress (mergedConfig config)) = true /\
    truthy (ip_aclContractAddress (mergedConfig config)) = true.
Proof.
  intros config Hi. unfold mergedConfig.
  rewrite (getNetworkDefaults_row _ Hi). cbn [member_field].
  cbn [ip_gatewayUrl ip_kmsContractAddress ip_aclContractAddress].
  destruct (or_string (network config) "sepolia" =? "localhost");
    repeat split; apply truthy_or_else; discriminate.
Qed.

Lemma mergedConfig_complete_witness :
  truthy (ip_gatewayUrl (mergedConfig
    {| network := Some "mainnet"; gatewayUrl := Some ""; publicKey := None;
       kmsContractAddress := None; aclContractAddress := None |})) = true.
Proof.
  refine (proj1 (mergedConfig_complete
    {| network := Some "mainnet"; gatewayUrl := Some ""; publicKey := None;
       kmsContractAddress := None; aclContractAddress := None |} _)).
  reflexivity.
Defined.

(** X11. A configuration that sets the gateway URL and both contract
    addresses to non-empty strings is handed on as it is: the network name,
    recognized or not, inherited or not, changes nothing. *)
Theorem mergedConfig_full_override :
  forall config : FhevmConfig,
    truthy (gatewayUrl config) = true ->
    truthy (kmsContractAddress config) = true ->
    truthy (aclContractAddress config) = true ->
    mergedConfig config =
    {| ip_kmsContractAddress := kmsContractAddress config;
       ip_aclContractAddress := aclContractAddress config;
       ip_gatewayUrl := gatewayUrl config;
       ip_publicKey := publicKey config |}.
Proof.
  intros config Hg Hk Ha. unfold mergedConfig, or_else.
  now rewrite Hg, Hk, Ha.
Qed.

Lemma mergedConfig_full_override_witness :
  mergedConfig {| network := Some "toString"; gatewayUrl := Some "https://gw.example";
                  publicKey := Some "0x04ab"; kmsContractAddress := Some "0x01";
                  aclContractAddress := Some "0x02" |}
  = {| ip_kmsContractAddress := Some "0x01"; ip_aclContractAddress := Some "0x02";
       ip_gatewayUrl := Some "https://gw.example"; ip_publicKey := Some "0x04ab" |}.
Proof.
  exact (mergedConfig_full_override
           {| network := Some "toString"; gatewayUrl := Some "https://gw.example";
              publicKey := Some "0x04ab"; kmsContractAddress := Some "0x01";
              aclContractAddress := Some "0x02" |} eq_refl eq_refl eq_refl).
Defined.

(** X12. A network name that is the name of an inherited property
    ("constructor", "toString", "__proto__", ...) does not fall back to the
    [sepolia] row: the lookup finds the inherited member, and every one of
    the three fields that the caller left out or left empty reaches
    [createInstance] as [undefined]. *)
Theorem mergedConfig_inherited_network :
  forall config : FhevmConfig,
    inherited (or_string (network config) "sepolia") = true ->
    getNetworkDefaults (or_string (network config) "sepolia")
    = Inherited (or_string (network config) "sepolia") /\
    (truthy (gatewayUrl config) = false ->
     ip_gatewayUrl (mergedConfig config) = None) /\
    (truthy (kmsContractAddress config) = false ->
     ip_kmsContractAddress (mergedConfig config) = None) /\
    (truthy (aclContractAddress config) = false ->
     ip_aclContractAddress (mergedConfig config) = None).
Proof.
  intros config Hi.
  assert (Hrow : getNetworkDefaults (or_string (network config) "sepolia")
                 = Inherited (or_string (network config) "sepolia")).
  { unfold getNetworkDefaults, defaults_get, defaults. cbn [assoc].
    destruct (String.eqb_spec "sepolia" (or_string (network config) "sepolia"))
      as [E|_]; [rewrite <- E in Hi; discriminate Hi|].
    destruct (String.eqb_spec "localhost" (or_string (network config) "sepolia"))
      as [E|_]; [rewrite <- E in Hi; discriminate Hi|].
    now rewrite Hi. }
  split; [exact Hrow|].
  unfold mergedConfig. rewrite Hrow. cbn [member_field].
  cbn [ip_gatewayUrl ip_kmsContractAddress ip_aclContractAddress].
  unfold or_else. repeat split; intros ->; reflexivity.
Qed.

Lemma mergedConfig_inherited_network_witness :
  ip_kmsContractAddress (mergedConfig
    {| network := Some "toString"; gatewayUrl := Some "https://gw.example";
       publicKey := None; kmsContractAddress := None;
       aclContractAddress := None |}) = None.
Proof.
  refine (proj1 (proj2 (proj2 (mergedConfig_inherited_network
    {| network := Some "toString"; gatewayUrl := Some "https://gw.example";
       publicKey := None; kmsContractAddress := None;
       aclContractAddress := None |} _))) _); reflexivity.
Defined.

(** ** Further properties of the facade *)

(** X13. Whenever an attempt of [initialize] has settled with [ready] set,
    whatever the cells held before, the creation was fulfilled, the hook
    holds that instance and the instance has a keypair: [getPublicKey] of
    core/instance.ts returns its key instead of throwing. *)
Theorem initialize_ready_means_keypair :
  forall (o : Outcome FhevmInstance) (st : useFhevm.State),
    useFhevm.ready (useFhevm.initialize_settle o st) = true ->
    exists i : FhevmInstance,
      o = Ok i /\
      useFhevm.instance (useFhevm.initialize_settle o st) = Some i /\
      hasKeypair i = true /\
      Instance.getPublicKey i = Ok (getPublicKey i).
Proof.
  intros [i|e] st; cbn; [|discriminate].
  intros Hk. exists i. unfold Instance.getPublicKey. rewrite Hk. auto.
Qed.

Lemma initialize_ready_means_keypair_witness :
  exists i : FhevmInstance,
    Ok Stub.localInstance = Ok i /\
    useFhevm.instance (useFhevm.initialize_settle (Ok Stub.localInstance)
                         useFhevm.initial) = Some i /\
    hasKeypair i = true /\
    Instance.getPublicKey i = Ok (getPublicKey i).
Proof.
  exact (initialize_ready_means_keypair (Ok Stub.localInstance) useFhevm.initial
           eq_refl).
Defined.

(** X14. Starting a re-initialization neither unsets [ready] nor drops the
    instance: while the new creation is in flight [decrypt],
    [decryptMultiple] and [encrypt] behave as before it started, so a hook
    that was ready keeps working on the previous instance until the
    attempt settles. *)
Theorem helpers_during_reinitialization :
  forall (Ext : Type) (rt : Runtime Ext)
         (encryptValue : FhevmInstance -> PlainValue -> EncryptionType ->
                         M Ext EncryptedValue)
         (fhevm : useFhevm.State) (value : PlainValue) (type : option EncryptionType)
         (handle : Handle) (handles : list Handle) (options : DecryptOptions)
         (est : useEncrypt.State) (dst : useDecrypt.State) (w : World Ext),
    useFhevm.ready (useFhevm.initialize_begin fhevm) = useFhevm.ready fhevm /\
    useFhevm.instance (useFhevm.initialize_begin fhevm) = useFhevm.instance fhevm /\
    useDecrypt.decrypt rt (useFhevm.initialize_begin fhevm) handle options dst w
    = useDecrypt.decrypt rt fhevm handle options dst w /\
    useDecrypt.decryptMultiple rt (useFhevm.initialize_begin fhevm) handles options
      dst w
    = useDecrypt.decryptMultiple rt fhevm handles options dst w /\
    useEncrypt.encrypt encryptValue (useFhevm.initialize_begin fhevm) value type est w
    = useEncrypt.encrypt encryptValue fhevm value type est w.
Proof. intros. repeat split; reflexivity. Qed.









(** X19. The instance behind [useDecrypt] and [useEncrypt] comes from a
    [useFhevm] of their own that is given no configuration: what their
    mounting hands to [createInstance], if [initFhevm] lets it get that
    far, is always the [sepolia] row, with no public key, and it is the
    only call made; [loading] is unset once it has settled. *)
Theorem hooks_create_default_instance :
  forall (Ext : Type) (rt : Runtime Ext) (w : World Ext),
    useEncrypt.fhevm rt w = useDecrypt.fhevm rt w /\
    useFhevm.loading (fst (useDecrypt.fhevm rt w)) = false /\
    (trace (snd (useDecrypt.fhevm rt w)) = trace w ++ [EvInitFhevm] \/
     trace (snd (useDecrypt.fhevm rt w)) =
     trace w ++
     [EvInitFhevm;
      EvCreateInstance
        {| ip_kmsContractAddress :=
             Some "0x9D6891A6240D6130c54ae243d8005063D05fE14b";
           ip_aclContractAddress :=
             Some "0xFee8407e2f5e3Ee68ad77cAE98c434e637f516e5";
           ip_gatewayUrl := Some "https://gateway.sepolia.zama.ai";
           ip_publicKey := None |}]).
Proof.
  intros Ext rt w. split; [reflexivity|].
  unfold useDecrypt.fhevm, useFhevm.mount, useFhevm.initialize.
  pose proof (createFhevmInstance_trace Ext rt emptyConfig w) as Ht.
  cbn zeta in Ht.
  destruct (createFhevmInstance rt emptyConfig w) as [o w']. cbn [fst snd] in *.
  split; [now destruct o|exact Ht].
Qed.

(** ** The provider and the two components *)

(** X20. What [FhevmProvider] shows along an attempt of [initialize]:
    while the creation is in flight and a truthy [loadingComponent] is
    given, that node and not the children; after a rejection [e], when an
    [errorComponent] is given, [errorComponent(e)] and not the children;
    after a fulfilled attempt that ran alone, the children, inside a
    provider whose value is the settled state, so that [useFhevmContext]
    returns that state. With neither prop given the children are always
    rendered, ready or not. *)
Theorem FhevmProvider_render_lifecycle :
  forall (Node : Type) (truthy_node : Node -> bool) (children : Node)
         (loadingComponent : option Node) (errorComponent : option (Error -> Node))
         (st : useFhevm.State),
    (forall node : Node,
        loadingComponent = Some node ->
        truthy_node node = true ->
        FhevmProvider.render Node truthy_node children loadingComponent
          errorComponent (useFhevm.initialize_begin st)
        = FhevmProvider.Fragment Node node) /\
    (forall (component : Error -> Node) (e : Error) (st' : useFhevm.State),
        errorComponent = Some component ->
        FhevmProvider.render Node truthy_node children loadingComponent
          errorComponent (useFhevm.initialize_settle (Threw e) st')
        = FhevmProvider.Fragment Node (component e)) /\
    (forall i : FhevmInstance,
        FhevmProvider.render Node truthy_node children loadingComponent
          errorComponent
          (useFhevm.initialize_settle (Ok i) (useFhevm.initialize_begin st))
        = FhevmProvider.Provider Node
            (useFhevm.initialize_settle (Ok i) (useFhevm.initialize_begin st))
            children /\
        FhevmProvider.useFhevmContext
          (Some (useFhevm.initialize_settle (Ok i) (useFhevm.initialize_begin st)))
        = Ok (useFhevm.initialize_settle (Ok i) (useFhevm.initialize_begin st))) /\
    (loadingComponent = None ->
     errorComponent = None ->
     forall s : useFhevm.State,
       FhevmProvider.render Node truthy_node children loadingComponent
         errorComponent s
       = FhevmProvider.Provider Node s children).
Proof.
  intros Node truthy_node children loadingComponent errorComponent st.
  repeat split.
  - intros node -> Ht. unfold FhevmProvider.render, FhevmProvider.loading_and.
    cbn. now rewrite Ht.
  - intros component e st' ->. reflexivity.
  - intros -> -> s. unfold FhevmProvider.render, FhevmProvider.loading_and.
    destruct (useFhevm.loading s); now destruct (useFhevm.error s).
Qed.

Lemma FhevmProvider_render_lifecycle_witness :
  FhevmProvider.render string (fun s => negb (s =? "")) "children"
    (Some "Initializing FHEVM...") (Some (fun e => ("Error: " ++ message e)%string))
    (useFhevm.initialize_begin useFhevm.initial)
  = FhevmProvider.Fragment string "Initializing FHEVM...".
Proof.
  exact (proj1 (FhevmProvider_render_lifecycle string (fun s => negb (s =? ""))
                  "children" (Some "Initializing FHEVM...")
                  (Some (fun e => ("Error: " ++ message e)%string)) useFhevm.initial)
           "Initializing FHEVM..." eq_refl eq_refl).
Defined.

Section DecryptOutputFacts.

Context {Ext : Type} (rt : Runtime Ext).

(** What the [catch] block leaves behind. *)
Lemma DecryptOutput_caught (props : DecryptOutput.Props) (err : Error)
      (dv : option Z) (st : useDecrypt.State) (w : World Ext)
      (calls : list DecryptOutput.Callback) :
  DecryptOutput.decryptedValue (DecryptOutput.caught props err dv st w calls) = dv /\
  DecryptOutput.hook (DecryptOutput.caught props err dv st w calls) = st /\
  DecryptOutput.world (DecryptOutput.caught props err dv st w calls) = w /\
  DecryptOutput.called (DecryptOutput.caught props err dv st w calls) =
  calls ++ match DecryptOutput.p_onError props with
           | Some _ => [DecryptOutput.OnError err]
           | None => []
           end /\
  DecryptOutput.settled (DecryptOutput.caught props err dv st w calls) =
  match DecryptOutput.p_onError props with
  | Some onError => onError err
  | None => Ok tt
  end.
Proof.
  unfold DecryptOutput.caught.
  destruct (DecryptOutput.p_onError props); cbn; rewrite ?app_nil_r; auto.
Qed.

End DecryptOutputFacts.

(** X21. [handleDecrypt] of [DecryptOutput] rejects only when [onError]
    itself throws: in every other run its promise is fulfilled, whatever
    the hook, the wallet, the gateway or [onDecrypt] did. Without an
    [onError] prop it never rejects. *)
Theorem DecryptOutput_handleDecrypt_rejects_only_from_onError :
  forall (Ext : Type) (rt : Runtime Ext) (props : DecryptOutput.Props)
         (fhevm : useFhevm.State) (dv : option Z) (st : useDecrypt.State)
         (w : World Ext),
    DecryptOutput.settled (DecryptOutput.handleDecrypt rt props fhevm dv st w)
    = Ok tt \/
    exists (onError : Error -> Outcome unit) (err e : Error),
      DecryptOutput.p_onError props = Some onError /\
      onError err = Threw e /\
      DecryptOutput.settled (DecryptOutput.handleDecrypt rt props fhevm dv st w)
      = Threw e /\
      In (DecryptOutput.OnError err)
         (DecryptOutput.called (DecryptOutput.handleDecrypt rt props fhevm dv st w)).
Proof.
  intros Ext rt props fhevm dv st w.
  assert (Hc : forall err dv' st' (w' : World Ext) calls,
             DecryptOutput.settled (DecryptOutput.caught props err dv' st' w' calls)
             = Ok tt \/
             exists (onError : Error -> Outcome unit) (err0 e : Error),
               DecryptOutput.p_onError props = Some onError /\
               onError err0 = Threw e /\
               DecryptOutput.settled
                 (DecryptOutput.caught props err dv' st' w' calls) = Threw e /\
               In (DecryptOutput.OnError err0)
                  (DecryptOutput.called
                     (DecryptOutput.caught props err dv' st' w' calls))).
  { intros err dv' st' w' calls. unfold DecryptOutput.caught.
    destruct (DecryptOutput.p_onError props) as [onError|]; cbn; [|now left].
    destruct (onError err) as [[]|e] eqn:He; [now left|].
    right. exists onError, err, e. repeat split; auto.
    apply in_or_app. right. now left. }
  unfold DecryptOutput.handleDecrypt.
  destruct (useDecrypt.decrypt rt fhevm _ _ st w) as [[[r|err] st'] w'].
  - destruct (DecryptOutput.p_onDecrypt props) as [onDecrypt|]; [|now left].
    destruct (onDecrypt (value r)) as [u|err]; [now left|apply Hc].
  - apply Hc.
Qed.

(** X22. [handleDecrypt] while the hook is not ready: nothing is signed or
    fetched, the displayed value stays, and the cells of [useDecrypt] stay
    too, [error] included, because the hook throws before its [try] block.
    The not-ready error reaches [onError] when that prop is given and
    nothing at all when it is not. *)
Theorem DecryptOutput_handleDecrypt_not_ready :
  forall (Ext : Type) (rt : Runtime Ext) (props : DecryptOutput.Props)
         (fhevm : useFhevm.State) (dv : option Z) (st : useDecrypt.State)
         (w : World Ext),
    useFhevm.ready fhevm = false ->
    DecryptOutput.decryptedValue (DecryptOutput.handleDecrypt rt props fhevm dv st w)
    = dv /\
    DecryptOutput.hook (DecryptOutput.handleDecrypt rt props fhevm dv st w) = st /\
    DecryptOutput.world (DecryptOutput.handleDecrypt rt props fhevm dv st w) = w /\
    DecryptOutput.called (DecryptOutput.handleDecrypt rt props fhevm dv st w) =
    match DecryptOutput.p_onError props with
    | Some _ => [DecryptOutput.OnError notReady]
    | None => []
    end /\
    (DecryptOutput.p_onError props = None ->
     DecryptOutput.settled (DecryptOutput.handleDecrypt rt props fhevm dv st w)
     = Ok tt).
Proof.
  intros Ext rt props fhevm dv st w Hr.
  unfold DecryptOutput.handleDecrypt, useDecrypt.decrypt. rewrite Hr.
  assert (E : match useFhevm.instance fhevm with
              | Some _ | _ => (@Threw DecryptResult notReady, st, w)
              end = (Threw notReady, st, w))
    by now destruct (useFhevm.instance fhevm).
  rewrite E.
  destruct (DecryptOutput_caught props notReady dv st w [])
    as (H1 & H2 & H3 & H4 & H5).
  repeat split; auto. intros Hn. rewrite H5, Hn. reflexivity.
Qed.

Lemma DecryptOutput_handleDecrypt_not_ready_witness :
  DecryptOutput.called (DecryptOutput.handleDecrypt Stub.runtime
    {| DecryptOutput.p_handle := HBigInt 7;
       DecryptOutput.p_contractAddress := "0x5FbDB2315678afecb367f032d93F642f64180aa3";
       DecryptOutput.p_userAddress := "0xf39Fd6e51aad88F6F4ce6aB8827279cffFb92266";
       DecryptOutput.p_gatewayUrl := None;
       DecryptOutput.p_autoDecrypt := false;
       DecryptOutput.p_onDecrypt := None;
       DecryptOutput.p_onError := None |}
    useFhevm.initial None useDecrypt.initial
    (Stub.start (Stub.script [Stub.reply 200 "OK" JNull])))
  = [].
Proof.
  exact (proj1 (proj2 (proj2 (proj2
    (DecryptOutput_handleDecrypt_not_ready _ Stub.runtime
       {| DecryptOutput.p_handle := HBigInt 7;
          DecryptOutput.p_contractAddress :=
            "0x5FbDB2315678afecb367f032d93F642f64180aa3";
          DecryptOutput.p_userAddress :=
            "0xf39Fd6e51aad88F6F4ce6aB8827279cffFb92266";
          DecryptOutput.p_gatewayUrl := None;
          DecryptOutput.p_autoDecrypt := false;
          DecryptOutput.p_onDecrypt := None;
          DecryptOutput.p_onError := None |}
       useFhevm.initial None useDecrypt.initial
       (Stub.start (Stub.script [Stub.reply 200 "OK" JNull])) eq_refl))))).
Defined.



(** X24. The auto-decrypt effect does nothing at all, no call, no state
    change, no callback, when [autoDecrypt] is off, when the handle is the
    bigint [0n] or the empty string, or when one of the two addresses is
    empty. *)
Theorem DecryptOutput_autoDecrypt_skips :
  forall (Ext : Type) (rt : Runtime Ext) (props : DecryptOutput.Props)
         (fhevm : useFhevm.State) (dv : option Z) (st : useDecrypt.State)
         (w : World Ext),
    DecryptOutput.p_autoDecrypt props = false \/
    DecryptOutput.p_handle props = HBigInt 0 \/
    DecryptOutput.p_handle props = HString "" \/
    DecryptOutput.p_contractAddress props = "" \/
    DecryptOutput.p_userAddress props = "" ->
    DecryptOutput.autoDecrypt_effect rt props fhevm dv st w =
    {| DecryptOutput.settled := Ok tt; DecryptOutput.decryptedValue := dv;
       DecryptOutput.hook := st; DecryptOutput.world := w;
       DecryptOutput.called := [] |}.
Proof.
  intros Ext rt props fhevm dv st w H.
  unfold DecryptOutput.autoDecrypt_effect.
  destruct H as [H|[H|[H|[H|H]]]]; rewrite H; cbn;
    rewrite ?andb_false_r; reflexivity.
Qed.

Lemma DecryptOutput_autoDecrypt_skips_witness :
  DecryptOutput.world (DecryptOutput.autoDecrypt_effect Stub.runtime
    {| DecryptOutput.p_handle := HBigInt 0;
       DecryptOutput.p_contractAddress := "0x5FbDB2315678afecb367f032d93F642f64180aa3";
       DecryptOutput.p_userAddress := "0xf39Fd6e51aad88F6F4ce6aB8827279cffFb92266";
       DecryptOutput.p_gatewayUrl := None;
       DecryptOutput.p_autoDecrypt := true;
       DecryptOutput.p_onDecrypt := None;
       DecryptOutput.p_onError := None |}
    (useFhevm.initialize_settle (Ok Stub.localInstance) useFhevm.initial)
    None useDecrypt.initial
    (Stub.start (Stub.script [Stub.reply 200 "OK" (JObject [("value", JString "1")])])))
  = Stub.start (Stub.script [Stub.reply 200 "OK" (JObject [("value", JString "1")])]).
Proof.
  rewrite (DecryptOutput_autoDecrypt_skips _ Stub.runtime
    {| DecryptOutput.p_handle := HBigInt 0;
       DecryptOutput.p_contractAddress := "0x5FbDB2315678afecb367f032d93F642f64180aa3";
       DecryptOutput.p_userAddress := "0xf39Fd6e51aad88F6F4ce6aB8827279cffFb92266";
       DecryptOutput.p_gatewayUrl := None;
       DecryptOutput.p_autoDecrypt := true;
       DecryptOutput.p_onDecrypt := None;
       DecryptOutput.p_onError := None |}
    (useFhevm.initialize_settle (Ok Stub.localInstance) useFhevm.initial)
    None useDecrypt.initial
    (Stub.start (Stub.script [Stub.reply 200 "OK" (JObject [("value", JString "1")])]))
    (or_intror (or_introl eq_refl))).
  reflexivity.
Defined.

Section EncryptInputFacts.

Context {Ext : Type} (rt : Runtime Ext).
Variable Number : string -> string.
Variable encryptValue :
  FhevmInstance -> PlainValue -> EncryptionType -> M Ext EncryptedValue.

(** What the [catch] block leaves behind. *)
Lemma EncryptInput_caught (props : EncryptInput.Props) (err : Error)
      (value : string) (st : useEncrypt.State) (w : World Ext)
      (calls : list EncryptInput.Callback) :
  EncryptInput.input (EncryptInput.caught props err value st w calls) = value /\
  EncryptInput.hook (EncryptInput.caught props err value st w calls) = st /\
  EncryptInput.world (EncryptInput.caught props err value st w calls) = w /\
  EncryptInput.called (EncryptInput.caught props err value st w calls) =
  calls ++ match EncryptInput.p_onError props with
           | Some _ => [EncryptInput.OnError err]
           | None => []
           end.
Proof.
  unfold EncryptInput.caught.
  destruct (EncryptInput.p_onError props); cbn; rewrite ?app_nil_r; auto.
Qed.

End EncryptInputFacts.

(** X25. [handleSubmit] of [EncryptInput]. On the empty input it does
    nothing: no conversion, no encryption, no callback, no state change.
    On any other input the text is afterwards either untouched or cleared,
    and it is cleared only if the text converted, [encrypt] was fulfilled
    and [onEncrypt], when given, returned without throwing. *)
Theorem EncryptInput_handleSubmit_clears_on_success_only :
  forall (Ext : Type) (rt : Runtime Ext) (Number : string -> string)
         (encryptValue : FhevmInstance -> PlainValue -> EncryptionType ->
                         M Ext EncryptedValue)
         (props : EncryptInput.Props) (fhevm : useFhevm.State) (value : string)
         (st : useEncrypt.State) (w : World Ext),
    EncryptInput.handleSubmit rt Number encryptValue props fhevm "" st w =
    {| EncryptInput.settled := Ok tt; EncryptInput.input := "";
       EncryptInput.hook := st; EncryptInput.world := w;
       EncryptInput.called := [] |} /\
    (EncryptInput.input
       (EncryptInput.handleSubmit rt Number encryptValue props fhevm value st w)
     = value \/
     EncryptInput.input
       (EncryptInput.handleSubmit rt Number encryptValue props fhevm value st w)
     = "" /\
     exists (v : PlainValue) (encrypted : EncryptedValue),
       EncryptInput.numericValue rt Number
         (match EncryptInput.p_type props with Some t => t | None => Tuint64 end)
         value = Ok v /\
       fst (fst (useEncrypt.encrypt encryptValue fhevm v
                   (Some (match EncryptInput.p_type props with
                          | Some t => t
                          | None => Tuint64
                          end)) st w)) = Ok encrypted /\
       forall onEncrypt : EncryptedValue -> string -> Outcome unit,
         EncryptInput.p_onEncrypt props = Some onEncrypt ->
         exists u : unit, onEncrypt encrypted value = Ok u).
Proof.
  intros Ext rt Number encryptValue props fhevm value st w.
  split; [reflexivity|].
  unfold EncryptInput.handleSubmit. cbn zeta.
  destruct (String.eqb_spec value "") as [->|Hv]; [now left|].
  destruct (EncryptInput.numericValue rt Number _ value) as [v|err] eqn:Hn.
  2:{ left. apply EncryptInput_caught. }
  destruct (useEncrypt.encrypt encryptValue fhevm v _ st w)
    as [[[encrypted|err] st'] w'] eqn:He.
  2:{ left. apply EncryptInput_caught. }
  destruct (EncryptInput.p_onEncrypt props) as [onEncrypt|].
  - destruct (onEncrypt encrypted value) as [u|err] eqn:Hc.
    + right. split; [reflexivity|]. exists v, encrypted.
      split; [reflexivity|]. split; [now rewrite He|].
      intros f [= <-]. now exists u.
    + left. apply EncryptInput_caught.
  - right. split; [reflexivity|]. exists v, encrypted.
    split; [reflexivity|]. split; [now rewrite He|]. discriminate.
Qed.

(** X26. What stops [handleSubmit] before the engine. For ['bool'] and the
    widths up to ['uint64'] the conversion cannot fail: ['bool'] reads the
    text as [true] when it is "true" in any case or "1", the widths pass
    [Number(value)] on, whatever it is. For ['uint128'], ['uint256'],
    ['address'], ['bytes'] and ['bytes256'] a text that [BigInt] refuses
    ends the submission there. In that case, and when the hook is not
    ready, [encryptValue] is not run: the world, the cells of [useEncrypt]
    and the text stay as they were, and the only callback called is
    [onError], when given. *)
Theorem EncryptInput_handleSubmit_stops_before_engine :
  forall (Ext : Type) (rt : Runtime Ext) (Number : string -> string)
         (encryptValue : FhevmInstance -> PlainValue -> EncryptionType ->
                         M Ext EncryptedValue)
         (props : EncryptInput.Props) (fhevm : useFhevm.State) (value : string)
         (st : useEncrypt.State) (w : World Ext) (type : EncryptionType),
    type = match EncryptInput.p_type props with Some t => t | None => Tuint64 end ->
    value <> "" ->
    (In type [Tbool; Tuint4; Tuint8; Tuint16; Tuint32; Tuint64] ->
     EncryptInput.numericValue rt Number type value =
     Ok (match type with
         | Tbool => PBoolean ((toLowerCase rt value =? "true") || (value =? "1"))
         | _ => PNumber (Number value)
         end)) /\
    (In type [Tuint128; Tuint256; Taddress; Tbytes; Tbytes256] ->
     EncryptInput.numericValue rt Number type value =
     match BigInt rt (VJson (JString value)) with
     | Ok z => Ok (PBigInt z)
     | Threw e => Threw e
     end) /\
    ((exists e : Error, EncryptInput.numericValue rt Number type value = Threw e) \/
     useFhevm.ready fhevm = false ->
     exists err : Error,
       EncryptInput.input
         (EncryptInput.handleSubmit rt Number encryptValue props fhevm value st w)
       = value /\
       EncryptInput.hook
         (EncryptInput.handleSubmit rt Number encryptValue props fhevm value st w)
       = st /\
       EncryptInput.world
         (EncryptInput.handleSubmit rt Number encryptValue props fhevm value st w)
       = w /\
       EncryptInput.called
         (EncryptInput.handleSubmit rt Number encryptValue props fhevm value st w)
       = match EncryptInput.p_onError props with
         | Some _ => [EncryptInput.OnError err]
         | None => []
         end).
Proof.
  intros Ext rt Number encryptValue props fhevm value st w type Ht Hv.
  repeat split.
  - intros Hin. cbn in Hin.
    destruct Hin as [<-|[<-|[<-|[<-|[<-|[<-|[]]]]]]]; reflexivity.
  - intros Hin. cbn in Hin.
    destruct Hin as [<-|[<-|[<-|[<-|[<-|[]]]]]]; reflexivity.
  - intros H. unfold EncryptInput.handleSubmit. cbn zeta. rewrite <- Ht.
    apply String.eqb_neq in Hv. rewrite Hv.
    destruct (EncryptInput.numericValue rt Number type value) as [v|e] eqn:Hn.
    + destruct H as [(e & He)|Hr]; [discriminate He|].
      unfold useEncrypt.encrypt. rewrite Hr.
      assert (E : match useFhevm.instance fhevm with
                  | Some _ | _ => (@Threw EncryptedValue notReady, st, w)
                  end = (Threw notReady, st, w))
        by now destruct (useFhevm.instance fhevm).
      rewrite E. exists notReady. apply EncryptInput_caught.
    + exists e. apply EncryptInput_caught.
Qed.

(** The text "12x" submitted as a ['uint256']. *)
Lemma EncryptInput_handleSubmit_stops_before_engine_witness :
  exists err : Error,
    EncryptInput.input
      (EncryptInput.handleSubmit Stub.runtime (fun s => s)
         (fun _ _ _ => ret {| data := [1%Z]; handles := ["0x01"]; inputProof := "0x" |})
         {| EncryptInput.p_type := Some Tuint256; EncryptInput.p_onEncrypt := None;
            EncryptInput.p_onError := None |}
         (useFhevm.initialize_settle (Ok Stub.localInstance) useFhevm.initial)
         "12x" useEncrypt.initial (Stub.start (Stub.script [])))
    = "12x" /\
    EncryptInput.hook
      (EncryptInput.handleSubmit Stub.runtime (fun s => s)
         (fun _ _ _ => ret {| data := [1%Z]; handles := ["0x01"]; inputProof := "0x" |})
         {| EncryptInput.p_type := Some Tuint256; EncryptInput.p_onEncrypt := None;
            EncryptInput.p_onError := None |}
         (useFhevm.initialize_settle (Ok Stub.localInstance) useFhevm.initial)
         "12x" useEncrypt.initial (Stub.start (Stub.script [])))
    = useEncrypt.initial /\
    EncryptInput.world
      (EncryptInput.handleSubmit Stub.runtime (fun s => s)
         (fun _ _ _ => ret {| data := [1%Z]; handles := ["0x01"]; inputProof := "0x" |})
         {| EncryptInput.p_type := Some Tuint256; EncryptInput.p_onEncrypt := None;
            EncryptInput.p_onError := None |}
         (useFhevm.initialize_settle (Ok Stub.localInstance) useFhevm.initial)
         "12x" useEncrypt.initial (Stub.start (Stub.script [])))
    = Stub.start (Stub.script []) /\
    EncryptInput.called
      (EncryptInput.handleSubmit Stub.runtime (fun s => s)
         (fun _ _ _ => ret {| data := [1%Z]; handles := ["0x01"]; inputProof := "0x" |})
         {| EncryptInput.p_type := Some Tuint256; EncryptInput.p_onEncrypt := None;
            EncryptInput.p_onError := None |}
         (useFhevm.initialize_settle (Ok Stub.localInstance) useFhevm.initial)
         "12x" useEncrypt.initial (Stub.start (Stub.script [])))
    = [].
Proof.
  refine (proj2 (proj2 (EncryptInput_handleSubmit_stops_before_engine _
            Stub.runtime (fun s => s)
            (fun _ _ _ => ret {| data := [1%Z]; handles := ["0x01"];
                                 inputProof := "0x" |})
            {| EncryptInput.p_type := Some Tuint256;
               EncryptInput.p_onEncrypt := None;
               EncryptInput.p_onError := None |}
            (useFhevm.initialize_settle (Ok Stub.localInstance) useFhevm.initial)
            "12x" useEncrypt.initial (Stub.start (Stub.script []))
            Tuint256 eq_refl _)) _).
  - discriminate.
  - left. exists (mkError "Cannot convert 12x to a BigInt"). reflexivity.
Defined.
